(** * EatAlyzer: the upload session, the analysis client and the chart transforms

    A shallow embedding of [src/app/api/analyze.ts] (the analysis client and
    its image encoder) and of the [FoodAnalysisApp] component (the upload
    session held in five [useState] cells, its two handlers and the two chart
    transforms), followed by the properties of the specification that are
    settled against them. *)

From Stdlib Require Import List String Ascii Bool NArith.
From Stdlib.Strings Require Import Byte.
From Stdlib Require Import PrimFloat.
Import ListNotations.

Local Open Scope string_scope.
Local Open Scope list_scope.

Set Warnings "-register-all,-inexact-float".

(* ===================================================================== *)
(** ** JavaScript values and the string operations the source uses *)
(* ===================================================================== *)

Module JS.

(** A JavaScript [number] is an IEEE 754 binary64 value. *)
Definition number : Type := float.

(** The values a parsed JSON reply can hold, with [undefined] for the
    result of reading a property that is not there. *)
Inductive value : Type :=
| VUndefined
| VNull
| VBool (b : bool)
| VNumber (x : number)
| VString (s : string)
| VArray (items : list value)
| VObject (fields : list (string * value)).

(** A promise that has settled: [await] yields [a] or throws [e]. *)
Inductive outcome (A : Type) : Type :=
| Resolved (a : A)
| Rejected (e : string).
Arguments Resolved {A} a.
Arguments Rejected {A} e.

(** Own-property lookup in an object literal. *)
Fixpoint own (fields : list (string * value)) (k : string) : value :=
  match fields with
  | [] => VUndefined
  | (k', v) :: rest => if String.eqb k' k then v else own rest k
  end.

(** [v.k] for a named property [k].  Reading a property of [undefined] or
    [null] throws a TypeError ([None]); every other value answers, with
    [undefined] when it has no such property.  Only own properties of
    objects are modelled: the names the source reads ([choices],
    [message], [content]) are defined on no prototype. *)
Definition get_prop (v : value) (k : string) : option value :=
  match v with
  | VUndefined | VNull => None
  | VObject fields => Some (own fields k)
  | VBool _ | VNumber _ | VString _ | VArray _ => Some VUndefined
  end.

(** [v[0]]: the first element of an array, the first character of a
    string, the property ["0"] of an object. *)
Definition get_first (v : value) : option value :=
  match v with
  | VUndefined | VNull => None
  | VArray items => Some (hd VUndefined items)
  | VString (String c _) => Some (VString (String c EmptyString))
  | VString EmptyString => Some VUndefined
  | VObject fields => Some (own fields "0")
  | VBool _ | VNumber _ => Some VUndefined
  end.

(** [s.startsWith(p)]. *)
Definition startsWith (s p : string) : bool := String.prefix p s.

(** [s.split(sep)] for a one-character separator: the segments between
    the separators, never an empty array. *)
Fixpoint split (s : string) (sep : ascii) : list string :=
  match s with
  | EmptyString => [EmptyString]
  | String c rest =>
      if Ascii.eqb c sep then EmptyString :: split rest sep
      else match split rest sep with
           | seg :: segs => String c seg :: segs
           | [] => [String c EmptyString]
           end
  end.

(** [s.includes(c)] for one character. *)
Fixpoint includes (s : string) (c : ascii) : bool :=
  match s with
  | EmptyString => false
  | String d rest => Ascii.eqb d c || includes rest c
  end.

(** JavaScript truthiness, as tested by [!v] and [v && ...]: [undefined],
    [null], [false], [0], [-0], [NaN] and the empty string are falsy. *)
Definition truthy (v : value) : bool :=
  match v with
  | VUndefined | VNull => false
  | VBool b => b
  | VNumber x => negb (PrimFloat.eqb x PrimFloat.zero || PrimFloat.is_nan x)
  | VString s => negb (String.eqb s EmptyString)
  | VArray _ | VObject _ => true
  end.

(** Interpolation [`${v}`] of a value that is a string or [undefined]. *)
Definition interpolate (v : option string) : string :=
  match v with
  | Some s => s
  | None => "undefined"
  end.

End JS.

(* ===================================================================== *)
(** ** Files and the image encoder *)
(* ===================================================================== *)

Module File.

(** The browser's [File]: its name, its declared media type and its
    bytes. *)
Record t : Type := mk {
  name : string;
  type : string;
  content : list byte
}.

Definition eq_dec (f g : t) : {f = g} + {f <> g}.
Proof.
  decide equality.
  - apply (list_eq_dec Byte.byte_eq_dec).
  - apply string_dec.
  - apply string_dec.
Defined.

Definition eqb (f g : t) : bool := if eq_dec f g then true else false.

End File.

Module Base64.

Definition alphabet : list ascii :=
  list_ascii_of_string
    "ABCDEFGHIJKLMNOPQRSTUVWXYZabcdefghijklmnopqrstuvwxyz0123456789+/".

Definition pad : ascii := "="%char.

Definition digit (n : N) : ascii := nth (N.to_nat n) alphabet pad.

Definition code (b : byte) : N := Byte.to_N b.

(** Three bytes make four digits; a tail of one or two bytes is padded. *)
Fixpoint encode (bs : list byte) : list ascii :=
  match bs with
  | [] => []
  | [a] =>
      [digit (N.shiftr (code a) 2);
       digit (N.shiftl (N.land (code a) 3) 4);
       pad; pad]
  | [a; b] =>
      [digit (N.shiftr (code a) 2);
       digit (N.lor (N.shiftl (N.land (code a) 3) 4) (N.shiftr (code b) 4));
       digit (N.shiftl (N.land (code b) 15) 2);
       pad]
  | a :: b :: c :: rest =>
      digit (N.shiftr (code a) 2)
      :: digit (N.lor (N.shiftl (N.land (code a) 3) 4) (N.shiftr (code b) 4))
      :: digit (N.lor (N.shiftl (N.land (code b) 15) 2) (N.shiftr (code c) 6))
      :: digit (N.land (code c) 63)
      :: encode rest
  end.

End Base64.

Module Encoder.
Import JS.

(** What [FileReader.readAsDataURL] hands to [onload]: an RFC 2397 data
    URL made of the file's declared media type and the base64 of its
    bytes.  [FileReader] belongs to the platform, not to the repository;
    this is its result for a file whose media type is known. *)
Definition readAsDataURL (file : File.t) : string :=
  "data:" ++ File.type file ++ ";base64,"
    ++ string_of_list_ascii (Base64.encode (File.content file)).

(** [fileToBase64] of analyze.ts.  [read_error] says whether the reader
    fires [onerror] (the promise rejects) instead of [onload].  On load
    the promise resolves with [base64String.split(',')[1]], which is
    [undefined] ([None]) when the split has a single segment. *)
Definition fileToBase64 (read_error : bool) (file : File.t)
  : outcome (option string) :=
  if read_error then Rejected "ProgressEvent"
  else
    let base64String := readAsDataURL file in
    let base64Content := nth_error (split base64String ","%char) 1 in
    Resolved base64Content.

(** The transport encoding in the words of the specification: the data
    URL with the prefix up to and including the first comma removed
    ([None] for a text without a comma).  To be compared with what
    [fileToBase64] resolves with. *)
Fixpoint without_prefix (dataURL : string) : option string :=
  match dataURL with
  | EmptyString => None
  | String c rest =>
      if Ascii.eqb c ","%char then Some rest else without_prefix rest
  end.

End Encoder.

(* ===================================================================== *)
(** ** The analysis record *)
(* ===================================================================== *)

(** [interface FoodAnalysisResponse], declared alike in both source files. *)
Module Fats.
Record t : Type := mk {
  total : JS.number;
  saturated : JS.number;
  unsaturated : JS.number;
  trans : JS.number
}.
End Fats.

Module NutritionalInfo.
Record t : Type := mk {
  fats : Fats.t;
  protein : JS.number;
  carbohydrates : JS.number;
  sugar : JS.number;
  fiber : JS.number
}.
End NutritionalInfo.

Module HealthAssessment.
Record t : Type := mk {
  isHealthy : bool;
  recommendedConsumption : string;
  warnings : list string;
  benefits : list string
}.
End HealthAssessment.

Module FoodAnalysisResponse.
Import JS.

Record t : Type := mk {
  calories : JS.number;
  contents : list string;
  nutritionalInfo : NutritionalInfo.t;
  healthAssessment : HealthAssessment.t
}.

(** The JSON value that carries a record. *)
Definition to_value (a : t) : value :=
  let n := nutritionalInfo a in
  let f := NutritionalInfo.fats n in
  let h := healthAssessment a in
  VObject
    [("calories", VNumber (calories a));
     ("contents", VArray (map VString (contents a)));
     ("nutritionalInfo",
       VObject
         [("fats",
            VObject
              [("total", VNumber (Fats.total f));
               ("saturated", VNumber (Fats.saturated f));
               ("unsaturated", VNumber (Fats.unsaturated f));
               ("trans", VNumber (Fats.trans f))]);
          ("protein", VNumber (NutritionalInfo.protein n));
          ("carbohydrates", VNumber (NutritionalInfo.carbohydrates n));
          ("sugar", VNumber (NutritionalInfo.sugar n));
          ("fiber", VNumber (NutritionalInfo.fiber n))]);
     ("healthAssessment",
       VObject
         [("isHealthy", VBool (HealthAssessment.isHealthy h));
          ("recommendedConsumption",
            VString (HealthAssessment.recommendedConsumption h));
          ("warnings", VArray (map VString (HealthAssessment.warnings h)));
          ("benefits", VArray (map VString (HealthAssessment.benefits h)))])].

Definition bind {A B : Type} (o : option A) (k : A -> option B) : option B :=
  match o with
  | Some a => k a
  | None => None
  end.

Definition as_number (v : value) : option number :=
  match v with VNumber x => Some x | _ => None end.

Definition as_bool (v : value) : option bool :=
  match v with VBool b => Some b | _ => None end.

Definition as_string (v : value) : option string :=
  match v with VString s => Some s | _ => None end.

Fixpoint sequence {A : Type} (os : list (option A)) : option (list A) :=
  match os with
  | [] => Some []
  | o :: rest =>
      bind o (fun a => bind (sequence rest) (fun l => Some (a :: l)))
  end.

Definition as_strings (v : value) : option (list string) :=
  match v with
  | VArray items => sequence (map as_string items)
  | _ => None
  end.

Definition field (v : value) (k : string) : option value :=
  match v with
  | VObject fields => Some (own fields k)
  | _ => None
  end.

(** The expected shape, in the words of the data model: a value has it
    when every field of the record is there with the declared type.  The
    source has no such check; this is what the specification means by a
    reply that parses as the analysis record. *)
Definition of_value (v : value) : option t :=
  bind (bind (field v "calories") as_number) (fun cal =>
  bind (bind (field v "contents") as_strings) (fun cont =>
  bind (field v "nutritionalInfo") (fun n =>
  bind (field n "fats") (fun f =>
  bind (bind (field f "total") as_number) (fun ftotal =>
  bind (bind (field f "saturated") as_number) (fun fsat =>
  bind (bind (field f "unsaturated") as_number) (fun funsat =>
  bind (bind (field f "trans") as_number) (fun ftrans =>
  bind (bind (field n "protein") as_number) (fun prot =>
  bind (bind (field n "carbohydrates") as_number) (fun carb =>
  bind (bind (field n "sugar") as_number) (fun sug =>
  bind (bind (field n "fiber") as_number) (fun fib =>
  bind (field v "healthAssessment") (fun h =>
  bind (bind (field h "isHealthy") as_bool) (fun healthy =>
  bind (bind (field h "recommendedConsumption") as_string) (fun rec =>
  bind (bind (field h "warnings") as_strings) (fun warn =>
  bind (bind (field h "benefits") as_strings) (fun ben =>
  Some (mk cal cont
          (NutritionalInfo.mk (Fats.mk ftotal fsat funsat ftrans)
             prot carb sug fib)
          (HealthAssessment.mk healthy rec warn ben))))))))))))))))))).

End FoodAnalysisResponse.

(* ===================================================================== *)
(** ** The analysis client (analyze.ts) *)
(* ===================================================================== *)

Module Client.
Import JS.

(** The body and headers of the one POST. *)
Record Request : Type := mkRequest {
  url : string;
  model : string;
  prompt : string;
  image_url : string;
  temperature : JS.number;
  response_format : string;
  authorization : string;
  content_type : string
}.

Definition instruction : string :=
  "Analyze this food image and provide nutritional information. 
                Please respond ONLY with a JSON object containing the following fields:
                - calories: numeric value of estimated calories
                - contents: array of ingredients or food items detected
                - nutritionalInfo: object containing detailed nutritional values including fats (total, saturated, unsaturated, trans), protein, carbohydrates, sugar, and fiber
                - healthAssessment: object with boolean isHealthy, recommendedConsumption advice, warnings array, and benefits array
                
                Return ONLY the JSON object with no additional text.".

(** Everything outside the function that decides one call: whether the
    file read fails, the value of [process.env.NEXT_PUBLIC_GROQ_API_KEY],
    what [axios.post] does with the request ([None]: it throws, on a
    network error or a status outside 2xx; [Some data]: the parsed
    [response.data]) and what [JSON.parse] does with its argument
    ([None]: it throws a SyntaxError). *)
Record Env : Type := mkEnv {
  read_error : File.t -> bool;
  api_key : option string;
  axios_post : Request -> option value;
  JSON_parse : value -> option value
}.

Definition request (env : Env) (base64Image : option string) : Request :=
  {| url := "https://api.groq.com/openai/v1/chat/completions";
     model := "llama-3.2-90b-vision-preview";
     prompt := instruction;
     image_url := "data:image/jpeg;base64," ++ interpolate base64Image;
     temperature := 0.2%float;
     response_format := "json_object";
     authorization := "Bearer " ++ interpolate (api_key env);
     content_type := "application/json" |}.

(** What the [try] block can throw. *)
Inductive thrown : Type :=
| ReadFailed
| RequestFailed
| TypeError
| SyntaxError.

(** [response.data.choices[0].message.content]; [None] is a TypeError. *)
Definition message_content (data : value) : option value :=
  match get_prop data "choices" with
  | None => None
  | Some choices =>
      match get_first choices with
      | None => None
      | Some choice =>
          match get_prop choice "message" with
          | None => None
          | Some message => get_prop message "content"
          end
      end
  end.

(** The body of the [try]. *)
Definition try_analyze (env : Env) (imageFile : File.t) : thrown + value :=
  match Encoder.fileToBase64 (read_error env imageFile) imageFile with
  | Rejected _ => inl ReadFailed
  | Resolved base64Image =>
      match axios_post env (request env base64Image) with
      | None => inl RequestFailed
      | Some data =>
          match message_content data with
          | None => inl TypeError
          | Some content =>
              match JSON_parse env content with
              | None => inl SyntaxError
              | Some jsonContent => inr jsonContent
              end
          end
      end
  end.

Definition analysis_error : string := "Failed to analyze food image".

(** [analyzeFoodImage]: the [catch] turns whatever was thrown into one
    error; the [as FoodAnalysisResponse] of the return is a type
    assertion and checks nothing. *)
Definition analyzeFoodImage (env : Env) (imageFile : File.t) : outcome value :=
  match try_analyze env imageFile with
  | inl _ => Rejected analysis_error
  | inr jsonContent => Resolved jsonContent
  end.

End Client.

(* ===================================================================== *)
(** ** The upload session (FoodAnalysisApp) *)
(* ===================================================================== *)

Module Session.
Import JS.

(** The five [useState] cells of the component.  The result cell is
    declared [FoodAnalysisResponse | null]; what it holds at run time is
    [null] or whatever value [analyzeFoodImage] resolved with, since
    nothing checks that value. *)
Record State : Type := mkState {
  selectedFile : option File.t;
  imagePreview : option string;
  analysisResult : value;
  isLoading : bool;
  error : option string
}.

Definition initial : State :=
  {| selectedFile := None;
     imagePreview := None;
     analysisResult := VNull;
     isLoading := false;
     error := None |}.

Definition setSelectedFile (v : option File.t) (st : State) : State :=
  {| selectedFile := v;
     imagePreview := imagePreview st;
     analysisResult := analysisResult st;
     isLoading := isLoading st;
     error := error st |}.

Definition setImagePreview (v : option string) (st : State) : State :=
  {| selectedFile := selectedFile st;
     imagePreview := v;
     analysisResult := analysisResult st;
     isLoading := isLoading st;
     error := error st |}.

Definition setAnalysisResult (v : value) (st : State) : State :=
  {| selectedFile := selectedFile st;
     imagePreview := imagePreview st;
     analysisResult := v;
     isLoading := isLoading st;
     error := error st |}.

Definition setIsLoading (v : bool) (st : State) : State :=
  {| selectedFile := selectedFile st;
     imagePreview := imagePreview st;
     analysisResult := analysisResult st;
     isLoading := v;
     error := error st |}.

Definition setError (v : option string) (st : State) : State :=
  {| selectedFile := selectedFile st;
     imagePreview := imagePreview st;
     analysisResult := analysisResult st;
     isLoading := isLoading st;
     error := v |}.

(** What a handler starts besides updating the cells: a [FileReader]
    read for the preview, or a call of [analyzeFoodImage] (the only
    place a network request comes from). *)
Inductive Effect : Type :=
| ReadPreview (file : File.t)
| CallAnalyze (file : File.t).

Definition invalid_type_message : string := "Please select an image file".
Definition no_file_message : string := "Please select an image first".
Definition analysis_failed_message : string :=
  "Failed to analyze image. Please try again.".

(** [event.target.files && event.target.files[0]]: [files] is [null] or
    a list, and the first file counts when there is one. *)
Definition first_file (files : option (list File.t)) : option File.t :=
  match files with
  | None => None
  | Some l => hd_error l
  end.

(** [handleFileChange].  It reads no cell: it only calls setters, so it
    acts on the cells as they are when the event arrives. *)
Definition handleFileChange (files : option (list File.t)) (st : State)
  : State * list Effect :=
  let st := setError None st in
  match first_file files with
  | Some file =>
      if negb (startsWith (File.type file) "image/") then
        (setError (Some invalid_type_message) st, [])
      else
        let st := setSelectedFile (Some file) st in
        let st := setAnalysisResult VNull st in
        (st, [ReadPreview file])
  | None => (st, [])
  end.

(** [reader.onload] of the preview read. *)
Definition onload (result : string) (st : State) : State :=
  setImagePreview (Some result) st.

(** [handleAnalyze] up to its [await].  The handler belongs to a render:
    the [selectedFile] it tests and passes on is the one that render saw
    ([seen], the closure), while its setters act on the cells as they are
    now ([st]).  It does not look at [isLoading]. *)
Definition handleAnalyze (seen st : State) : State * list Effect :=
  match selectedFile seen with
  | None => (setError (Some no_file_message) st, [])
  | Some file =>
      let st := setIsLoading true st in
      let st := setError None st in
      (st, [CallAnalyze file])
  end.

(** [handleAnalyze] from the [await] on: the rest of the [try], the
    [catch], and the [finally].  [result] is how the promise of
    [analyzeFoodImage] settled; a resolved value is stored as it is. *)
Definition handleAnalyze_settled (result : outcome value) (st : State)
  : State :=
  let st :=
    match result with
    | Resolved r => setAnalysisResult r st
    | Rejected _ => setError (Some analysis_failed_message) st
    end in
  setIsLoading false st.

(** [disabled={!selectedFile || isLoading}] of the analyze button, for
    the cells a render saw. *)
Definition analyze_disabled (st : State) : bool :=
  match selectedFile st with
  | None => true
  | Some _ => isLoading st
  end.

(** [!analysisResult] is false: the test the component makes of its
    result cell. *)
Definition has_result (st : State) : bool := truthy (analysisResult st).

(** *** The component as a transition system *)

(** The cells as React holds them, the cells as the last committed render
    saw them (what the page shows and what the handlers of that render
    close over), and the work that is under way: the preview reads that
    have not fired [onload] yet and the calls of [analyzeFoodImage] that
    have not settled. *)
Record Config : Type := mkConfig {
  cells : State;
  rendered : State;
  reads : list File.t;
  calls : list File.t
}.

Definition start : Config :=
  {| cells := initial; rendered := initial; reads := []; calls := [] |}.

(** [Commit] is a re-render: the page and the handlers catch up with the
    cells.  React commits after the task that ran the setters, so events
    dispatched within one task all meet the same render. *)
Inductive Event : Type :=
| FileChange (files : option (list File.t))
| ClickAnalyze
| ReaderLoaded (file : File.t)
| AnalyzeSettled (file : File.t) (result : outcome value)
| Commit.

Fixpoint take_out (file : File.t) (l : list File.t) : option (list File.t) :=
  match l with
  | [] => None
  | g :: rest =>
      if File.eqb file g then Some rest
      else match take_out file rest with
           | Some rest' => Some (g :: rest')
           | None => None
           end
  end.

Definition launch (c : Config) (r : State * list Effect) : Config :=
  let started := snd r in
  {| cells := fst r;
     rendered := rendered c;
     reads := reads c ++ flat_map (fun e => match e with
                                            | ReadPreview f => [f]
                                            | CallAnalyze _ => []
                                            end) started;
     calls := calls c ++ flat_map (fun e => match e with
                                            | CallAnalyze f => [f]
                                            | ReadPreview _ => []
                                            end) started |}.

(** One event.  [None]: the event cannot happen in this configuration (a
    click on a button that the page shows disabled, the completion of
    work that was never started).  A click runs the handler of the
    committed render. *)
Definition step (c : Config) (e : Event) : option Config :=
  match e with
  | FileChange files => Some (launch c (handleFileChange files (cells c)))
  | ClickAnalyze =>
      if analyze_disabled (rendered c) then None
      else Some (launch c (handleAnalyze (rendered c) (cells c)))
  | ReaderLoaded file =>
      match take_out file (reads c) with
      | None => None
      | Some rest =>
          Some {| cells := onload (Encoder.readAsDataURL file) (cells c);
                  rendered := rendered c;
                  reads := rest;
                  calls := calls c |}
      end
  | AnalyzeSettled file result =>
      match take_out file (calls c) with
      | None => None
      | Some rest =>
          Some {| cells := handleAnalyze_settled result (cells c);
                  rendered := rendered c;
                  reads := reads c;
                  calls := rest |}
      end
  | Commit =>
      Some {| cells := cells c;
              rendered := cells c;
              reads := reads c;
              calls := calls c |}
  end.

Fixpoint run (c : Config) (events : list Event) : option Config :=
  match events with
  | [] => Some c
  | e :: rest =>
      match step c e with
      | None => None
      | Some c' => run c' rest
      end
  end.

Definition reachable (c : Config) : Prop :=
  exists events, run start events = Some c.

(** Every event in a task of its own: a commit follows each one. *)
Fixpoint tasks (events : list Event) : list Event :=
  match events with
  | [] => []
  | e :: rest => e :: Commit :: tasks rest
  end.

(** What holds of every configuration the component can be in: as long
    as the committed render shows no selected file, nothing is stored,
    the flag is down and no call is outstanding; and a file that a render
    saw selected is still selected. *)
Definition consistent (c : Config) : Prop :=
  (selectedFile (rendered c) = None ->
   analysisResult (cells c) = VNull
   /\ isLoading (cells c) = false
   /\ calls c = [])
  /\ (selectedFile (rendered c) <> None -> selectedFile (cells c) <> None).

(** What holds in addition when every event is a task of its own: the
    render is up to date, at most one call is outstanding, and the flag
    is up exactly while one is. *)
Definition settled (c : Config) : Prop :=
  rendered c = cells c
  /\ (isLoading (cells c) = true -> exists file, calls c = [file])
  /\ (isLoading (cells c) = false -> calls c = []).

(** *** The four-valued pending state *)

(** The source keeps no such cell.  This is how the four states of the
    specification are read off the cells: Loading while the flag is up,
    Failed when the banner shows the analysis-failure message, Succeeded
    when a result is stored, Idle otherwise. *)
Inductive PendingState : Type := Idle | Loading | Succeeded | Failed.

Definition is_analysis_failure (e : option string) : bool :=
  match e with
  | Some m => String.eqb m analysis_failed_message
  | None => false
  end.

Definition pendingState (st : State) : PendingState :=
  if isLoading st then Loading
  else if is_analysis_failure (error st) then Failed
  else if has_result st then Succeeded
  else Idle.

(** Result and error message are not both present. *)
Definition exclusive (st : State) : Prop :=
  has_result st = false \/ error st = None.

End Session.

(* ===================================================================== *)
(** ** The chart transforms *)
(* ===================================================================== *)

Module Chart.
Import JS Session.

Record Datum : Type := mkDatum {
  name : string;
  value : JS.value;
  fill : string
}.

Definition bind {A B : Type} (o : option A) (k : A -> option B) : option B :=
  match o with
  | Some a => k a
  | None => None
  end.

(** [prepareNutritionData].  [None]: a property is read off [undefined]
    or [null] and the function throws a TypeError. *)
Definition prepareNutritionData (st : State) : option (list Datum) :=
  if negb (truthy (analysisResult st)) then Some []
  else
    bind (get_prop (analysisResult st) "nutritionalInfo")
      (fun nutritionalInfo =>
    bind (get_prop nutritionalInfo "carbohydrates") (fun carbohydrates =>
    bind (get_prop nutritionalInfo "protein") (fun protein =>
    bind (get_prop nutritionalInfo "fats") (fun fats =>
    bind (get_prop fats "total") (fun total =>
    bind (get_prop nutritionalInfo "fiber") (fun fiber =>
    bind (get_prop nutritionalInfo "sugar") (fun sugar =>
    Some
      [ {| name := "Carbs"; value := carbohydrates; fill := "#4CAF50" |};
        {| name := "Protein"; value := protein; fill := "#2E7D32" |};
        {| name := "Total Fat"; value := total; fill := "#81C784" |};
        {| name := "Fiber"; value := fiber; fill := "#A5D6A7" |};
        {| name := "Sugar"; value := sugar; fill := "#C8E6C9" |} ]))))))).

(** [prepareFatsData]. *)
Definition prepareFatsData (st : State) : option (list Datum) :=
  if negb (truthy (analysisResult st)) then Some []
  else
    bind (get_prop (analysisResult st) "nutritionalInfo")
      (fun nutritionalInfo =>
    bind (get_prop nutritionalInfo "fats") (fun fats =>
    bind (get_prop fats "saturated") (fun saturated =>
    bind (get_prop fats "unsaturated") (fun unsaturated =>
    bind (get_prop fats "trans") (fun trans =>
    Some
      [ {| name := "Saturated"; value := saturated; fill := "#FFA726" |};
        {| name := "Unsaturated"; value := unsaturated; fill := "#66BB6A" |};
        {| name := "Trans"; value := trans; fill := "#EF5350" |} ]))))).

End Chart.

(* ===================================================================== *)
(** ** The view: what the component renders from the cells *)
(* ===================================================================== *)

Module View.
Import Session.

(** JavaScript truthiness of a cell that is [null] or a string, as tested
    by [{error && ...}] and [{imagePreview ? ... : ...}]: [null] and the
    empty string are falsy. *)
Definition truthy (cell : option string) : bool :=
  match cell with
  | None => false
  | Some EmptyString => false
  | Some (String _ _) => true
  end.



(** The text of the file label. *)
Definition file_label (st : State) : string :=
  match selectedFile st with
  | Some file => File.name file
  | None => "Select a food image"
  end.

(** The text of the analyze button. *)
Definition button_label (st : State) : string :=
  if isLoading st then "Analyzing your meal..."
  else "Get Nutritional Analysis".

(** [{!analysisResult && !isLoading && ...}]: the how-it-works panel. *)
Definition how_it_works (st : State) : bool :=
  negb (has_result st) && negb (isLoading st).

Inductive Icon : Type := Apple | Carrot | Egg | Beef | Fish | Leaf.

(** The chain [index % 6 === 0 ? Apple : index % 6 === 1 ? Carrot : ...]. *)
Definition icon_for (index : nat) : Icon :=
  if Nat.eqb (Nat.modulo index 6) 0 then Apple
  else if Nat.eqb (Nat.modulo index 6) 1 then Carrot
  else if Nat.eqb (Nat.modulo index 6) 2 then Egg
  else if Nat.eqb (Nat.modulo index 6) 3 then Beef
  else if Nat.eqb (Nat.modulo index 6) 4 then Fish
  else Leaf.

(** [array.map((item, index) => f(item, index))], counting from [index]. *)
Fixpoint map_indexed {A B : Type} (f : A -> nat -> B) (l : list A)
    (index : nat) : list B :=
  match l with
  | [] => []
  | item :: rest => f item index :: map_indexed f rest (S index)
  end.

(** [array.slice(0, n)]. *)
Definition slice_from_start {A : Type} (l : list A) (n : nat) : list A :=
  firstn n l.

(** The ingredient chips: [contents.map(...)], one chip per item. *)
Definition ingredient_chips (a : FoodAnalysisResponse.t) : list string :=
  map_indexed (fun item _ => item) (FoodAnalysisResponse.contents a) 0.

(** The icon grid: [contents.slice(0, 6).map(...)], an icon and the item. *)
Definition ingredient_tiles (a : FoodAnalysisResponse.t)
  : list (Icon * string) :=
  map_indexed (fun item index => (icon_for index, item))
    (slice_from_start (FoodAnalysisResponse.contents a) 6) 0.

(** The health badge. *)
Definition health_badge (a : FoodAnalysisResponse.t) : string :=
  if HealthAssessment.isHealthy (FoodAnalysisResponse.healthAssessment a)
  then "Healthy Choice"
  else "Nutrition Alert".

(** The warnings card: the list when [warnings.length > 0], else the
    placeholder paragraph. *)
Inductive WarningsCard : Type :=
| WarningItems (items : list string)
| Placeholder (text : string).

Definition warnings_card (a : FoodAnalysisResponse.t) : WarningsCard :=
  let warnings :=
    HealthAssessment.warnings (FoodAnalysisResponse.healthAssessment a) in
  if Nat.ltb 0 (List.length warnings)
  then WarningItems (map_indexed (fun warning _ => warning) warnings 0)
  else Placeholder "No specific warnings for this food.".

(** The benefits card: [benefits.map(...)], with no placeholder. *)
Definition benefits_card (a : FoodAnalysisResponse.t) : list string :=
  map_indexed (fun benefit _ => benefit)
    (HealthAssessment.benefits (FoodAnalysisResponse.healthAssessment a)) 0.

End View.

(* ===================================================================== *)
(** ** What the component keeps true of its files and messages *)
(* ===================================================================== *)

Module Upkeep.
Import JS Session.

(** The check of [handleFileChange] on the declared media type. *)
Definition is_image (file : File.t) : bool :=
  startsWith (File.type file) "image/".

(** Every file the component holds or works on passed the check, and the
    preview is the data URL of such a file. *)
Definition vetted (c : Config) : Prop :=
  (forall file, selectedFile (cells c) = Some file -> is_image file = true)
  /\ (forall file,
        selectedFile (rendered c) = Some file -> is_image file = true)
  /\ Forall (fun file => is_image file = true) (reads c)
  /\ Forall (fun file => is_image file = true) (calls c)
  /\ (forall url, imagePreview (cells c) = Some url ->
        exists file, is_image file = true /\ url = Encoder.readAsDataURL file).


(** The error cell holds nothing, the type-rejection message or the
    analysis-failure message. *)
Definition known_error (c : Config) : Prop :=
  error (cells c) = None
  \/ error (cells c) = Some invalid_type_message
  \/ error (cells c) = Some analysis_failed_message.

End Upkeep.

(* ===================================================================== *)
(** ** Sample data *)
(* ===================================================================== *)

Module Sample.
Import Session.
Local Open Scope float_scope.

Definition jpeg : File.t :=
  File.mk "meal.jpg" "image/jpeg" [xff; xd8; xff; xe0; x00; x10].

Definition png : File.t :=
  File.mk "salad.png" "image/png" [x89; x50; x4e; x47].

Definition notes : File.t :=
  File.mk "notes.txt" "text/plain" [x68; x69].

(** A file whose declared media type holds a comma. *)
Definition odd : File.t :=
  File.mk "meal.img" "image/a,b" [x78].

(** The reply of end-to-end scenario A. *)
Definition meal : FoodAnalysisResponse.t :=
  FoodAnalysisResponse.mk 350
    ["grilled chicken"; "rice"; "broccoli"]
    (NutritionalInfo.mk (Fats.mk 8 2 5 1) 30 40 3 5)
    (HealthAssessment.mk true "Suitable as a main meal" [] ["High protein"]).

(** The value that the reply of scenario A parses to. *)
Definition meal_value : JS.value := FoodAnalysisResponse.to_value meal.

(** Scenario A up to the stored result, every event a task of its own:
    pick the photo, let the preview load, click, and the call resolves
    with [r]. *)
Definition analysed (file : File.t) (r : JS.value) : list Event :=
  tasks [ FileChange (Some [file]); ReaderLoaded file; ClickAnalyze;
          AnalyzeSettled file (JS.Resolved r) ].

(** The cells once [analysed file r] has run. *)
Definition shown (file : File.t) (r : JS.value) : State :=
  {| selectedFile := Some file;
     imagePreview := Some (Encoder.readAsDataURL file);
     analysisResult := r;
     isLoading := false;
     error := None |}.

(** The component at rest on [st]: rendered, nothing under way. *)
Definition at_rest (st : State) : Config :=
  {| cells := st; rendered := st; reads := []; calls := [] |}.

(** A [JSON.parse] described on finitely many texts: the parse of each
    listed text, a SyntaxError elsewhere. *)
Definition parse_table (known : list (string * JS.value)) (v : JS.value)
  : option JS.value :=
  match v with
  | JS.VString s =>
      match JS.own known s with
      | JS.VUndefined => None
      | parsed => Some parsed
      end
  | _ => None
  end.

(** JSON text written with apostrophes for its double quotes. *)
Fixpoint json (s : string) : string :=
  match s with
  | EmptyString => EmptyString
  | String c rest =>
      String (if Ascii.eqb c "'"%char then Ascii.ascii_of_nat 34 else c)
             (json rest)
  end.

(** The text of the reply of scenario A. *)
Definition meal_text : string :=
  json "{'calories': 350, 'contents': ['grilled chicken','rice','broccoli'], 'nutritionalInfo':{'fats':{'total':8,'saturated':2,'unsaturated':5,'trans':1},'protein':30,'carbohydrates':40,'sugar':3,'fiber':5}, 'healthAssessment':{'isHealthy':true,'recommendedConsumption':'Suitable as a main meal','warnings':[],'benefits':['High protein']}}".

(** A chat-completion reply whose first choice carries [content]. *)
Definition reply (content : JS.value) : JS.value :=
  JS.VObject
    [("choices",
       JS.VArray
         [JS.VObject
            [("message",
               JS.VObject [("role", JS.VString "assistant");
                           ("content", content)])]])].

(** The endpoint answers with the reply of scenario A, but the file
    cannot be read. *)
Definition env_unreadable : Client.Env :=
  {| Client.read_error := fun _ => true;
     Client.api_key := Some "gsk_test";
     Client.axios_post := fun _ => Some (reply (JS.VString meal_text));
     Client.JSON_parse :=
       parse_table [(meal_text, FoodAnalysisResponse.to_value meal)] |}.

(** The endpoint answers with the JSON text of an empty object. *)
Definition env_empty_object : Client.Env :=
  {| Client.read_error := fun _ => false;
     Client.api_key := Some "gsk_test";
     Client.axios_post := fun _ => Some (reply (JS.VString "{}"));
     Client.JSON_parse := parse_table [("{}", JS.VObject [])] |}.

(** The endpoint answers with the reply of scenario A. *)
Definition env_scenario_A : Client.Env :=
  {| Client.read_error := fun _ => false;
     Client.api_key := Some "gsk_test";
     Client.axios_post := fun _ => Some (reply (JS.VString meal_text));
     Client.JSON_parse :=
       parse_table [(meal_text, FoodAnalysisResponse.to_value meal)] |}.

(** The endpoint answers with an empty list of choices. *)
Definition env_no_choices : Client.Env :=
  {| Client.read_error := fun _ => false;
     Client.api_key := Some "gsk_test";
     Client.axios_post :=
       fun _ => Some (JS.VObject [("choices", JS.VArray [])]);
     Client.JSON_parse := fun v => Some v |}.

(** The first choice of a reply with two choices and an id. *)
Definition first_choice : list (string * JS.value) :=
  [("index", JS.VNumber 0%float);
   ("message",
     JS.VObject [("role", JS.VString "assistant");
                 ("content", JS.VString "{}")])].

Definition two_choices : list (string * JS.value) :=
  [("id", JS.VString "chatcmpl-1");
   ("choices",
     JS.VArray [JS.VObject first_choice;
                JS.VObject [("index", JS.VNumber 1%float)]])].

(** The endpoint answers with [two_choices]; no API key is configured. *)
Definition env_two_choices : Client.Env :=
  {| Client.read_error := fun _ => false;
     Client.api_key := None;
     Client.axios_post := fun _ => Some (JS.VObject two_choices);
     Client.JSON_parse := parse_table [("{}", JS.VObject [])] |}.

End Sample.

(* ===================================================================== *)
(** ** Properties of the image encoder *)
(* ===================================================================== *)

Section EncoderFacts.
Import JS.

Lemma includes_app (s t : string) (c : ascii) :
  includes (s ++ t) c = includes s c || includes t c.
Proof.
  induction s as [|d s IH]; simpl.
  - reflexivity.
  - rewrite IH. apply orb_assoc.
Qed.

Lemma split_clean (s : string) (sep : ascii) :
  includes s sep = false -> split s sep = [s].
Proof.
  induction s as [|d s IH]; simpl; intros H.
  - reflexivity.
  - apply orb_false_iff in H. destruct H as [Hd Hs].
    rewrite Hd, (IH Hs). reflexivity.
Qed.

Lemma split_at_first (p rest : string) (sep : ascii) :
  includes p sep = false ->
  split (p ++ String sep rest) sep = p :: split rest sep.
Proof.
  induction p as [|d p IH]; simpl; intros H.
  - rewrite Ascii.eqb_refl. reflexivity.
  - apply orb_false_iff in H. destruct H as [Hd Hp].
    rewrite Hd, (IH Hp). reflexivity.
Qed.

Lemma digit_not_comma (n : N) : Base64.digit n <> ","%char.
Proof.
  unfold Base64.digit.
  destruct (nth_in_or_default (N.to_nat n) Base64.alphabet Base64.pad)
    as [Hin | Hpad].
  - assert (Hall : Forall (fun c => c <> ","%char) Base64.alphabet).
    { unfold Base64.alphabet. simpl.
      repeat (constructor; [discriminate|]). constructor. }
    rewrite Forall_forall in Hall. apply Hall. exact Hin.
  - rewrite Hpad. discriminate.
Qed.

Lemma includes_string_of_list (l : list ascii) (c : ascii) :
  Forall (fun d => d <> c) l ->
  includes (string_of_list_ascii l) c = false.
Proof.
  induction 1 as [|d l Hd _ IH]; simpl.
  - reflexivity.
  - rewrite IH. apply Ascii.eqb_neq in Hd. rewrite Hd. reflexivity.
Qed.

(** Induction three bytes at a time, as [Base64.encode] recurses. *)
Lemma by_triples (P : list byte -> Prop) :
  P [] ->
  (forall a, P [a]) ->
  (forall a b, P [a; b]) ->
  (forall a b c rest, P rest -> P (a :: b :: c :: rest)) ->
  forall bs, P bs.
Proof.
  intros H0 H1 H2 H3.
  assert (H : forall bs, P bs /\ (forall a, P (a :: bs))
                         /\ (forall a b, P (a :: b :: bs))).
  { induction bs as [|x bs [IHa [IHb IHc]]].
    - repeat split; auto.
    - repeat split; auto. }
  intros bs. apply H.
Qed.

Lemma encode_no_comma (bs : list byte) :
  Forall (fun d => d <> ","%char) (Base64.encode bs).
Proof.
  induction bs as [| a | a b | a b c rest IH] using by_triples; simpl;
    repeat (constructor; [first [apply digit_not_comma | discriminate]|]);
    first [exact IH | constructor].
Qed.

Lemma payload_clean (bs : list byte) :
  includes (string_of_list_ascii (Base64.encode bs)) ","%char = false.
Proof. apply includes_string_of_list, encode_no_comma. Qed.

Lemma append_assoc (s t u : string) :
  ((s ++ t) ++ u = s ++ (t ++ u))%string.
Proof.
  induction s as [|d s IH]; simpl.
  - reflexivity.
  - rewrite IH. reflexivity.
Qed.

(** The data URL is a header, a comma and the base64 text. *)
Lemma dataURL_shape (file : File.t) :
  Encoder.readAsDataURL file
  = (("data:" ++ File.type file ++ ";base64")
       ++ String ","%char
            (string_of_list_ascii (Base64.encode (File.content file))))%string.
Proof.
  unfold Encoder.readAsDataURL. simpl. do 5 f_equal.
  rewrite append_assoc. reflexivity.
Qed.

Lemma header_clean (file : File.t) :
  includes (File.type file) ","%char = false ->
  includes ("data:" ++ File.type file ++ ";base64")%string ","%char = false.
Proof. intros Htype. rewrite !includes_app, Htype. reflexivity. Qed.

(** With no comma in the media type the split has two segments. *)
Lemma split_dataURL (file : File.t) :
  includes (File.type file) ","%char = false ->
  split (Encoder.readAsDataURL file) ","%char
  = [ ("data:" ++ File.type file ++ ";base64")%string;
      string_of_list_ascii (Base64.encode (File.content file)) ].
Proof.
  intros Htype. rewrite dataURL_shape.
  rewrite split_at_first by (apply header_clean; exact Htype).
  rewrite split_clean by apply payload_clean. reflexivity.
Qed.

End EncoderFacts.

(* ===================================================================== *)
(** ** Properties of the transition system *)
(* ===================================================================== *)

Section SessionFacts.
Import JS Session.

Lemma eqb_same (file : File.t) : File.eqb file file = true.
Proof.
  unfold File.eqb. destruct (File.eq_dec file file) as [_ | Hne].
  - reflexivity.
  - contradiction Hne. reflexivity.
Qed.



Lemma take_out_single (file g : File.t) (rest : list File.t) :
  take_out file [g] = Some rest -> rest = [].
Proof.
  simpl. destruct (File.eqb file g); intros H.
  - injection H as <-. reflexivity.
  - discriminate.
Qed.

(** The handlers on a file of the wrong type, on no file, on a valid
    image. *)
Lemma file_change_invalid (files : option (list File.t)) (file : File.t)
    (st : State) :
  first_file files = Some file ->
  startsWith (File.type file) "image/" = false ->
  handleFileChange files st = (setError (Some invalid_type_message) st, []).
Proof.
  intros Hfirst Htype. unfold handleFileChange. rewrite Hfirst, Htype.
  reflexivity.
Qed.

Lemma file_change_empty (files : option (list File.t)) (st : State) :
  first_file files = None ->
  handleFileChange files st = (setError None st, []).
Proof.
  intros Hfirst. unfold handleFileChange. rewrite Hfirst. reflexivity.
Qed.

Lemma file_change_valid (files : option (list File.t)) (file : File.t)
    (st : State) :
  first_file files = Some file ->
  startsWith (File.type file) "image/" = true ->
  handleFileChange files st
  = ({| selectedFile := Some file;
        imagePreview := imagePreview st;
        analysisResult := VNull;
        isLoading := isLoading st;
        error := None |}, [ReadPreview file]).
Proof.
  intros Hfirst Htype. unfold handleFileChange. rewrite Hfirst, Htype.
  reflexivity.
Qed.

(** A file-change event starts no call and leaves the flag and the
    committed render alone. *)
Lemma file_change_frame (files : option (list File.t)) (c : Config) :
  let c' := launch c (handleFileChange files (cells c)) in
  calls c' = calls c
  /\ isLoading (cells c') = isLoading (cells c)
  /\ rendered c' = rendered c.
Proof.
  unfold launch, handleFileChange.
  destruct (first_file files) as [file|]; simpl.
  - destruct (startsWith (File.type file) "image/"); simpl;
      rewrite app_nil_r; repeat split.
  - rewrite app_nil_r. repeat split.
Qed.

Lemma file_change_keeps_file (files : option (list File.t)) (st : State) :
  selectedFile st <> None ->
  selectedFile (fst (handleFileChange files st)) <> None.
Proof.
  unfold handleFileChange.
  destruct (first_file files) as [file|]; simpl; [|auto].
  destruct (startsWith (File.type file) "image/"); simpl; [discriminate|auto].
Qed.

Lemma file_change_keeps_null (files : option (list File.t)) (st : State) :
  analysisResult st = VNull ->
  analysisResult (fst (handleFileChange files st)) = VNull.
Proof.
  unfold handleFileChange.
  destruct (first_file files) as [file|]; simpl; [|auto].
  destruct (startsWith (File.type file) "image/"); simpl; auto.
Qed.

(** A click that the page accepts runs the handler on a selected file. *)
Lemma click_accepted (seen st : State) :
  analyze_disabled seen = false ->
  exists file,
    selectedFile seen = Some file
    /\ isLoading seen = false
    /\ handleAnalyze seen st
       = (setError None (setIsLoading true st), [CallAnalyze file]).
Proof.
  unfold analyze_disabled, handleAnalyze.
  destruct (selectedFile seen) as [file|]; [|discriminate].
  intros Hflag. exists file. repeat split. exact Hflag.
Qed.

Lemma consistent_start : consistent start.
Proof.
  unfold consistent, start; simpl. split.
  - intros _. repeat split.
  - intros H. exact H.
Qed.

Lemma consistent_step (c c' : Config) (e : Event) :
  consistent c -> step c e = Some c' -> consistent c'.
Proof.
  intros [Hbare Hkept] Hstep.
  destruct e as [files | | file | file result |]; simpl in Hstep.
  - injection Hstep as <-.
    destruct (file_change_frame files c) as (Hcalls & Hflag & Hseen).
    unfold consistent. rewrite Hcalls, Hflag, Hseen. split.
    + intros Hnone. destruct (Hbare Hnone) as (Hres & Hdown & Hno).
      repeat split; try assumption.
      apply file_change_keeps_null. exact Hres.
    + intros Hsome. apply file_change_keeps_file, Hkept, Hsome.
  - destruct (analyze_disabled (rendered c)) eqn:Hdis; [discriminate|].
    injection Hstep as <-.
    destruct (click_accepted (rendered c) (cells c) Hdis)
      as (file & Hfile & _ & Hrun).
    rewrite Hrun. unfold consistent, launch; simpl. split.
    + intros Hnone. rewrite Hfile in Hnone. discriminate.
    + intros Hsome. exact (Hkept Hsome).
  - destruct (take_out file (reads c)) as [rest|]; [|discriminate].
    injection Hstep as <-. unfold consistent; simpl. split; assumption.
  - destruct (take_out file (calls c)) as [rest|] eqn:Hout; [|discriminate].
    injection Hstep as <-. unfold consistent; simpl.
    destruct (selectedFile (rendered c)) as [seen|] eqn:Hseen.
    + split; [discriminate|].
      intros _. destruct result; simpl; apply Hkept; discriminate.
    + destruct (Hbare eq_refl) as (_ & _ & Hno). rewrite Hno in Hout.
      discriminate.
  - injection Hstep as <-. unfold consistent; simpl. split.
    + intros Hnone. apply Hbare.
      destruct (selectedFile (rendered c)) eqn:Hseen; [|reflexivity].
      exfalso. apply Hkept; [discriminate | exact Hnone].
    + intros H. exact H.
Qed.

Lemma consistent_run (events : list Event) (c c' : Config) :
  consistent c -> run c events = Some c' -> consistent c'.
Proof.
  revert c. induction events as [|e events IH]; simpl; intros c Hc Hrun.
  - injection Hrun as <-. exact Hc.
  - destruct (step c e) as [c1|] eqn:Hstep; [|discriminate].
    apply (IH c1); [|exact Hrun]. exact (consistent_step c c1 e Hc Hstep).
Qed.

Lemma reachable_consistent (c : Config) : reachable c -> consistent c.
Proof.
  intros [events Hrun].
  exact (consistent_run events start c consistent_start Hrun).
Qed.

(** With nothing selected, nothing is stored or running. *)
Lemma nothing_selected (c : Config) :
  reachable c ->
  selectedFile (cells c) = None \/ selectedFile (rendered c) = None ->
  analysisResult (cells c) = VNull
  /\ isLoading (cells c) = false
  /\ calls c = [].
Proof.
  intros Hreach Hnone. destruct (reachable_consistent c Hreach)
    as [Hbare Hkept].
  apply Hbare. destruct Hnone as [Hnone | Hnone]; [|exact Hnone].
  destruct (selectedFile (rendered c)) eqn:Hseen; [|reflexivity].
  exfalso. apply Hkept; [discriminate | exact Hnone].
Qed.

Lemma reachable_start : reachable start.
Proof. exists []. reflexivity. Qed.

Lemma reachable_after (events : list Event) (c : Config) :
  run start events = Some c -> reachable c.
Proof. intros H. exists events. exact H. Qed.

End SessionFacts.

(* ===================================================================== *)
(** ** The upload session: result, error message and loading flag *)
(* ===================================================================== *)

Section SessionClaims.
Import JS Session Sample.

(** C1, as stated, fails.  After a successful analysis of a photo, choosing
    a text file sets the type-rejection message and keeps the stored result,
    so result and error message are both present; and clicking again after a
    success raises the loading flag while the old result is still stored, so
    a result is present in the Loading state. *)
Lemma result_and_error_coexist :
  run start (analysed jpeg meal_value ++ tasks [FileChange (Some [notes])])
  = Some (at_rest (setError (Some invalid_type_message)
                     (shown jpeg meal_value)))
  /\ ~ exclusive (setError (Some invalid_type_message) (shown jpeg meal_value))
  /\ run start (analysed jpeg meal_value ++ tasks [ClickAnalyze])
     = Some {| cells := setIsLoading true (shown jpeg meal_value);
               rendered := setIsLoading true (shown jpeg meal_value);
               reads := [];
               calls := [jpeg] |}
  /\ has_result (setIsLoading true (shown jpeg meal_value)) = true
  /\ pendingState (setIsLoading true (shown jpeg meal_value)) = Loading.
Proof.
  repeat split; try reflexivity.
  intros [H | H]; discriminate H.
Qed.

(** C1, amended.  At every reachable state a stored result comes with a
    selected file.  Result and error message are both absent initially and
    after a valid image is selected; their mutual exclusion is preserved by
    a selection event without a file and by startAnalysis.  The other
    operations write one of the two and leave the other as it is: an invalid
    file and an analysis failure set the error message and keep the result,
    an analysis success stores the value the call resolved with, whatever it
    is, and keeps the error message. *)
Theorem exclusion_where_it_holds (c : Config) (Hreach : reachable c) :
  let st := cells c in
  (analysisResult st <> VNull -> selectedFile st <> None)
  /\ (analysisResult initial = VNull /\ error initial = None)
  /\ (forall files file,
        first_file files = Some file ->
        startsWith (File.type file) "image/" = true ->
        analysisResult (fst (handleFileChange files st)) = VNull
        /\ error (fst (handleFileChange files st)) = None)
  /\ (forall files,
        first_file files = None ->
        exclusive st -> exclusive (fst (handleFileChange files st)))
  /\ (exclusive st -> exclusive (fst (handleAnalyze (rendered c) st)))
  /\ (forall files file,
        first_file files = Some file ->
        startsWith (File.type file) "image/" = false ->
        analysisResult (fst (handleFileChange files st)) = analysisResult st
        /\ error (fst (handleFileChange files st)) = Some invalid_type_message)
  /\ (forall r : value,
        analysisResult (handleAnalyze_settled (Resolved r) st) = r
        /\ error (handleAnalyze_settled (Resolved r) st) = error st)
  /\ (forall e,
        analysisResult (handleAnalyze_settled (Rejected e) st)
        = analysisResult st
        /\ error (handleAnalyze_settled (Rejected e) st)
           = Some analysis_failed_message).
Proof.
  intros st. split.
  { intros Hres Hnone.
    destruct (nothing_selected c Hreach (or_introl Hnone)) as (Hnull & _).
    exact (Hres Hnull). }
  split; [split; reflexivity|].
  split; [|split; [|split; [|split]]].
  - intros files file Hfirst Htype.
    rewrite (file_change_valid files file st Hfirst Htype).
    split; reflexivity.
  - intros files Hnone _. rewrite (file_change_empty files st Hnone).
    right. reflexivity.
  - intros _. unfold handleAnalyze.
    destruct (selectedFile (rendered c)) eqn:Hseen; simpl.
    + right. reflexivity.
    + left. unfold has_result. simpl.
      destruct (nothing_selected c Hreach (or_intror Hseen)) as (Hnull & _).
      fold st in Hnull. rewrite Hnull. reflexivity.
  - intros files file Hfirst Htype.
    rewrite (file_change_invalid files file st Hfirst Htype).
    split; reflexivity.
  - split; intros; split; reflexivity.
Qed.

Lemma exclusion_where_it_holds_witness :
  reachable (at_rest (shown jpeg meal_value))
  /\ selectedFile (shown jpeg meal_value) <> None
  /\ exclusive (fst (handleAnalyze (shown jpeg meal_value)
                       (shown jpeg meal_value))).
Proof.
  assert (Hreach : reachable (at_rest (shown jpeg meal_value))).
  { apply (reachable_after (analysed jpeg meal_value)). reflexivity. }
  destruct (exclusion_where_it_holds _ Hreach)
    as (Hfile & _ & _ & _ & Hclick & _).
  split; [exact Hreach|]. split.
  - apply Hfile. discriminate.
  - apply Hclick. right. reflexivity.
Defined.




(** C6.  A file whose media type does not begin with image/ is rejected:
    the error cell is set at once to the type-rejection message and no
    other cell changes, so an Idle session stays Idle; no preview read and
    no call of the analysis client (hence no transport encoding and no
    network request) is started. *)
Theorem select_invalid_type (c : Config) (files : option (list File.t))
    (file : File.t)
    (Hfirst : first_file files = Some file)
    (Hinvalid : startsWith (File.type file) "image/" = false) :
  let st' := fst (handleFileChange files (cells c)) in
  error st' = Some invalid_type_message
  /\ selectedFile st' = selectedFile (cells c)
  /\ imagePreview st' = imagePreview (cells c)
  /\ analysisResult st' = analysisResult (cells c)
  /\ isLoading st' = isLoading (cells c)
  /\ snd (handleFileChange files (cells c)) = []
  /\ (pendingState (cells c) = Idle -> pendingState st' = Idle)
  /\ (exists c',
        step c (FileChange files) = Some c'
        /\ error (cells c') = Some invalid_type_message
        /\ reads c' = reads c
        /\ calls c' = calls c)
  /\ handleFileChange files (cells c)
     = (setError (Some invalid_type_message) (cells c), []).
Proof.
  intros st'. subst st'. simpl. unfold launch.
  rewrite (file_change_invalid files file (cells c) Hfirst Hinvalid). simpl.
  rewrite !app_nil_r.
  repeat (split; [reflexivity|]). split; [|split; [|reflexivity]].
  - unfold pendingState, has_result; simpl.
    destruct (isLoading (cells c)); [discriminate|].
    destruct (is_analysis_failure (error (cells c))); [discriminate|].
    destruct (truthy (analysisResult (cells c))); [discriminate|].
    reflexivity.
  - eexists. split; [reflexivity|]. repeat split.
Qed.

Lemma select_invalid_type_witness :
  error (fst (handleFileChange (Some [notes]) initial))
  = Some invalid_type_message
  /\ pendingState (fst (handleFileChange (Some [notes]) initial)) = Idle.
Proof.
  destruct (select_invalid_type start (Some [notes]) notes eq_refl eq_refl)
    as (Herror & _ & _ & _ & _ & _ & Hidle & _).
  split; [exact Herror | apply Hidle; reflexivity].
Defined.

(** C7.  When the call of the analysis client settles, the loading flag is
    cleared, whichever way it settled and whatever the cells hold: the
    session is not in Loading afterwards.  A success stores the value the
    call resolved with, a failure stores the fallback message. *)
Theorem loading_cleared_on_settle (st : State) (result : outcome value) :
  isLoading (handleAnalyze_settled result st) = false
  /\ pendingState (handleAnalyze_settled result st) <> Loading
  /\ match result with
     | Resolved r =>
         analysisResult (handleAnalyze_settled result st) = r
         /\ error (handleAnalyze_settled result st) = error st
     | Rejected _ =>
         error (handleAnalyze_settled result st)
         = Some analysis_failed_message
         /\ analysisResult (handleAnalyze_settled result st)
            = analysisResult st
     end
  /\ (forall c c' file,
        cells c = st ->
        step c (AnalyzeSettled file result) = Some c' ->
        cells c' = handleAnalyze_settled result st
        /\ isLoading (cells c') = false)
  /\ (forall env file,
        isLoading
          (handleAnalyze_settled (Client.analyzeFoodImage env file) st)
        = false).
Proof.
  split; [reflexivity|]. split.
  { unfold pendingState; simpl.
    destruct (is_analysis_failure _); [discriminate|].
    destruct (has_result _); discriminate. }
  split; [destruct result; split; reflexivity|]. split.
  - intros c c' file Hcells Hstep. simpl in Hstep.
    destruct (take_out file (calls c)) as [rest|]; [|discriminate].
    injection Hstep as <-. simpl. rewrite Hcells. split; reflexivity.
  - intros env file. reflexivity.
Qed.

Lemma loading_cleared_on_settle_witness :
  isLoading
    (cells {| cells := handleAnalyze_settled (Resolved VNull)
                         (setIsLoading true (shown jpeg VNull));
              rendered := setIsLoading true (shown jpeg VNull);
              reads := [];
              calls := [] |})
  = false.
Proof.
  destruct (loading_cleared_on_settle (setIsLoading true (shown jpeg VNull))
              (Resolved VNull)) as (_ & _ & _ & Hstep & _).
  exact (proj2 (Hstep
    {| cells := setIsLoading true (shown jpeg VNull);
       rendered := setIsLoading true (shown jpeg VNull);
       reads := [];
       calls := [jpeg] |}
    {| cells := handleAnalyze_settled (Resolved VNull)
                  (setIsLoading true (shown jpeg VNull));
       rendered := setIsLoading true (shown jpeg VNull);
       reads := [];
       calls := [] |}
    jpeg eq_refl eq_refl)).
Defined.

(** C8.  startAnalysis with no file selected sets the no-file message and
    changes nothing else: the loading flag is not raised and no call of the
    analysis client is started.  In every reachable state without a file
    the flag is down before and after. *)
Theorem analyze_without_file (seen st : State)
    (Hnone : selectedFile seen = None) :
  handleAnalyze seen st = (setError (Some no_file_message) st, [])
  /\ selectedFile (fst (handleAnalyze seen st)) = selectedFile st
  /\ imagePreview (fst (handleAnalyze seen st)) = imagePreview st
  /\ analysisResult (fst (handleAnalyze seen st)) = analysisResult st
  /\ isLoading (fst (handleAnalyze seen st)) = isLoading st
  /\ error (fst (handleAnalyze seen st)) = Some no_file_message
  /\ (forall c, reachable c -> cells c = st ->
        rendered c = seen \/ st = seen ->
        isLoading (fst (handleAnalyze seen st)) = false
        /\ pendingState (fst (handleAnalyze seen st)) <> Loading).
Proof.
  unfold handleAnalyze. rewrite Hnone. simpl.
  repeat (split; [reflexivity|]).
  intros c Hreach Hcells Hseen.
  assert (Hflag : isLoading st = false).
  { rewrite <- Hcells. apply (nothing_selected c Hreach).
    destruct Hseen as [Hseen | Hseen].
    - right. rewrite Hseen. exact Hnone.
    - left. rewrite Hcells, Hseen. exact Hnone. }
  split; [exact Hflag|]. unfold pendingState, has_result; simpl.
  rewrite Hflag.
  destruct (truthy (analysisResult st)); discriminate.
Qed.

Lemma analyze_without_file_witness :
  handleAnalyze initial initial
  = (setError (Some no_file_message) initial, [])
  /\ isLoading (fst (handleAnalyze initial initial)) = false.
Proof.
  destruct (analyze_without_file initial initial eq_refl)
    as (Hrun & _ & _ & _ & _ & _ & Hreach).
  split; [exact Hrun|].
  exact (proj1 (Hreach start reachable_start eq_refl (or_introl eq_refl))).
Defined.

(** C9.  Selecting a file of the wrong type leaves the selected file, the
    preview and the stored result as they were and only sets the error
    message.  After a successful analysis, choosing a text file therefore
    keeps the old image selected and the old result stored (and charted)
    next to the new message, the analyze button stays enabled, and
    startAnalysis calls the analysis client on the old image. *)
Theorem invalid_type_keeps_selection (st : State)
    (files : option (list File.t)) (file : File.t)
    (Hfirst : first_file files = Some file)
    (Hinvalid : startsWith (File.type file) "image/" = false) :
  let st' := fst (handleFileChange files st) in
  selectedFile st' = selectedFile st
  /\ imagePreview st' = imagePreview st
  /\ analysisResult st' = analysisResult st
  /\ isLoading st' = isLoading st
  /\ error st' = Some invalid_type_message
  /\ Chart.prepareNutritionData st' = Chart.prepareNutritionData st
  /\ Chart.prepareFatsData st' = Chart.prepareFatsData st
  /\ (forall old r,
        startsWith (File.type old) "image/" = true ->
        exists c,
          run start (analysed old r ++ tasks [FileChange files]) = Some c
          /\ cells c = setError (Some invalid_type_message) (shown old r)
          /\ rendered c = cells c
          /\ analyze_disabled (rendered c) = false
          /\ snd (handleAnalyze (rendered c) (cells c)) = [CallAnalyze old]).
Proof.
  intros st'. subst st'.
  rewrite (file_change_invalid files file st Hfirst Hinvalid). simpl.
  repeat (split; [reflexivity|]).
  intros old r Hold. unfold analysed. simpl.
  unfold launch at 1.
  rewrite (file_change_valid (Some [old]) old initial eq_refl Hold). simpl.
  rewrite eqb_same. simpl. rewrite eqb_same. simpl. unfold launch.
  rewrite (file_change_invalid files file _ Hfirst Hinvalid). simpl.
  eexists. split; [reflexivity|]. simpl. repeat split.
Qed.

Lemma invalid_type_keeps_selection_witness :
  analysisResult
    (fst (handleFileChange (Some [notes]) (shown jpeg meal_value)))
  = meal_value.
Proof.
  exact (proj1 (proj2 (proj2
    (invalid_type_keeps_selection (shown jpeg meal_value) (Some [notes]) notes
       eq_refl eq_refl)))).
Defined.

(** C10.  A change event that delivers no file (no list, or an empty one)
    clears the error message and leaves the selected file, the preview, the
    result and the loading flag unchanged; it starts nothing. *)
Theorem empty_selection_clears_error (st : State)
    (files : option (list File.t))
    (Hnone : first_file files = None) :
  handleFileChange files st = (setError None st, [])
  /\ error (fst (handleFileChange files st)) = None
  /\ selectedFile (fst (handleFileChange files st)) = selectedFile st
  /\ imagePreview (fst (handleFileChange files st)) = imagePreview st
  /\ analysisResult (fst (handleFileChange files st)) = analysisResult st
  /\ isLoading (fst (handleFileChange files st)) = isLoading st.
Proof.
  rewrite (file_change_empty files st Hnone). simpl. repeat split.
Qed.

Lemma empty_selection_clears_error_witness :
  handleFileChange (Some [])
    (setError (Some invalid_type_message) (shown jpeg meal_value))
  = (shown jpeg meal_value, []).
Proof.
  exact (proj1 (empty_selection_clears_error
                  (setError (Some invalid_type_message)
                     (shown jpeg meal_value))
                  (Some []) eq_refl)).
Defined.

End SessionClaims.

(* ===================================================================== *)
(** ** The chart transforms *)
(* ===================================================================== *)

Section ChartClaims.
Import JS Session Chart.



End ChartClaims.

(* ===================================================================== *)
(** ** The image encoder and the analysis client *)
(* ===================================================================== *)

Section ClientClaims.
Import JS Client.

(** C4.  The encoder misses the claim at a valid image file whose declared
    media type holds a comma.  [split(',')[1]] is the text between the
    first and the second comma: the data URL of such a file has two commas,
    and what [fileToBase64] resolves with is a piece of the header and not,
    as its own comment has it, the data URL without its prefix. *)
Lemma transport_differs_on_comma_type :
  startsWith (File.type Sample.odd) "image/" = true
  /\ Encoder.readAsDataURL Sample.odd = "data:image/a,b;base64,eA=="
  /\ Encoder.fileToBase64 false Sample.odd = Resolved (Some "b;base64")
  /\ Encoder.without_prefix (Encoder.readAsDataURL Sample.odd)
     = Some "b;base64,eA=="
  /\ Encoder.fileToBase64 false Sample.odd
     <> Resolved (Encoder.without_prefix (Encoder.readAsDataURL Sample.odd)).
Proof.
  repeat split; try reflexivity. discriminate.
Qed.

Lemma sequence_strings (l : list string) :
  FoodAnalysisResponse.sequence
    (map FoodAnalysisResponse.as_string (map VString l)) = Some l.
Proof.
  induction l as [|s l IH]; simpl.
  - reflexivity.
  - rewrite IH. reflexivity.
Qed.

(** The record read back from the value that carries it. *)
Lemma of_value_to_value (r : FoodAnalysisResponse.t) :
  FoodAnalysisResponse.of_value (FoodAnalysisResponse.to_value r) = Some r.
Proof.
  destruct r as [cal cont [[t s u tr] p cb sg fb] [h rc w b]].
  unfold FoodAnalysisResponse.of_value, FoodAnalysisResponse.to_value.
  cbn. rewrite !sequence_strings. reflexivity.
Qed.

(** The body of the [try], step by step. *)
Lemma try_analyze_steps (env : Env) (file : File.t) :
  try_analyze env file
  = if read_error env file then inl ReadFailed
    else
      match axios_post env
              (request env
                 (nth_error (split (Encoder.readAsDataURL file) ","%char) 1))
      with
      | None => inl RequestFailed
      | Some data =>
          match message_content data with
          | None => inl TypeError
          | Some content =>
              match JSON_parse env content with
              | None => inl SyntaxError
              | Some jsonContent => inr jsonContent
              end
          end
      end.
Proof.
  unfold try_analyze, Encoder.fileToBase64.
  destruct (read_error env file); reflexivity.
Qed.

(** C2, as stated, fails, in both directions.  A file that cannot be read
    makes the call fail although the endpoint would have answered with a
    reply of the expected shape; and a reply whose content is valid JSON of
    another shape (here the empty object) makes the call succeed and return
    that value. *)
Lemma analyze_failure_causes_differ :
  analyzeFoodImage Sample.env_unreadable Sample.jpeg = Rejected analysis_error
  /\ axios_post Sample.env_unreadable
       (request Sample.env_unreadable (Some "/9j/4AAQ"))
     = Some (Sample.reply (VString Sample.meal_text))
  /\ message_content (Sample.reply (VString Sample.meal_text))
     = Some (VString Sample.meal_text)
  /\ JSON_parse Sample.env_unreadable (VString Sample.meal_text)
     = Some (FoodAnalysisResponse.to_value Sample.meal)
  /\ FoodAnalysisResponse.of_value (FoodAnalysisResponse.to_value Sample.meal)
     = Some Sample.meal
  /\ analyzeFoodImage Sample.env_empty_object Sample.jpeg
     = Resolved (VObject [])
  /\ FoodAnalysisResponse.of_value (VObject []) = None.
Proof.
  repeat split; reflexivity.
Qed.

(** C2, amended.  The analyze operation fails, always with the same single
    error, exactly when the file cannot be read, or the HTTP call fails, or
    the reply has no choices[0].message to read a content from, or the
    content is not JSON text; there is no other failure kind.  On every
    other reply it returns the value parsed from the content, without
    checking its shape: the analysis record whenever the content is the
    text of one. *)
Theorem analyze_failure_causes (env : Env) (file : File.t) :
  let sent :=
    request env (nth_error (split (Encoder.readAsDataURL file) ","%char) 1) in
  (analyzeFoodImage env file = Rejected analysis_error <->
     read_error env file = true
     \/ (read_error env file = false /\ axios_post env sent = None)
     \/ (read_error env file = false
         /\ exists data,
              axios_post env sent = Some data /\ message_content data = None)
     \/ (read_error env file = false
         /\ exists data content,
              axios_post env sent = Some data
              /\ message_content data = Some content
              /\ JSON_parse env content = None))
  /\ (forall e, analyzeFoodImage env file = Rejected e -> e = analysis_error)
  /\ (forall v,
        analyzeFoodImage env file = Resolved v <->
        read_error env file = false
        /\ exists data content,
             axios_post env sent = Some data
             /\ message_content data = Some content
             /\ JSON_parse env content = Some v)
  /\ (forall data content r,
        read_error env file = false ->
        axios_post env sent = Some data ->
        message_content data = Some content ->
        JSON_parse env content = Some (FoodAnalysisResponse.to_value r) ->
        analyzeFoodImage env file
        = Resolved (FoodAnalysisResponse.to_value r)
        /\ FoodAnalysisResponse.of_value (FoodAnalysisResponse.to_value r)
           = Some r).
Proof.
  intros sent. unfold analyzeFoodImage. rewrite try_analyze_steps.
  fold sent.
  destruct (read_error env file) eqn:Hread.
  { split; [|split; [|split]].
    - split; intros _; [left|]; reflexivity.
    - intros e H. injection H as <-. reflexivity.
    - intros v. split; [discriminate|]. intros [H _]. discriminate H.
    - intros d c r H. discriminate H. }
  destruct (axios_post env sent) as [data|] eqn:Hpost.
  2:{ split; [|split; [|split]].
      - split; intros _; [right; left; split|]; reflexivity.
      - intros e H. injection H as <-. reflexivity.
      - intros v. split; [discriminate|].
        intros (_ & d & c & H & _). discriminate H.
      - intros d c r _ H. discriminate H. }
  destruct (message_content data) as [content|] eqn:Hcontent.
  2:{ split; [|split; [|split]].
      - split; intros _; [|reflexivity]. right. right. left.
        split; [reflexivity|]. exists data. split; [reflexivity | exact Hcontent].
      - intros e H. injection H as <-. reflexivity.
      - intros v. split; [discriminate|].
        intros (_ & d & c & H & Hc & _). injection H as <-.
        rewrite Hcontent in Hc. discriminate Hc.
      - intros d c r _ H Hc _. injection H as <-.
        rewrite Hcontent in Hc. discriminate Hc. }
  destruct (JSON_parse env content) as [parsed|] eqn:Hparse.
  - split; [|split; [|split]].
    + split; [discriminate|].
      intros [H | [[_ H] | [[_ (d & Hd & H)] | [_ (d & c & Hd & Hc & H)]]]];
        try discriminate.
      * injection Hd as <-. rewrite Hcontent in H. discriminate H.
      * injection Hd as <-. rewrite Hcontent in Hc. injection Hc as <-.
        rewrite Hparse in H. discriminate H.
    + discriminate.
    + intros v. split.
      * intros H. injection H as <-. split; [reflexivity|].
        exists data, content. repeat split; assumption.
      * intros (_ & d & c & Hd & Hc & H). injection Hd as <-.
        rewrite Hcontent in Hc. injection Hc as <-.
        rewrite Hparse in H. injection H as <-. reflexivity.
    + intros d c r _ Hd Hc H. injection Hd as <-.
      rewrite Hcontent in Hc. injection Hc as <-.
      rewrite Hparse in H. injection H as ->.
      split; [reflexivity | apply of_value_to_value].
  - split; [|split; [|split]].
    + split; [|reflexivity]. intros _. right. right. right.
      split; [reflexivity|]. exists data, content. repeat split; assumption.
    + intros e H. injection H as <-. reflexivity.
    + intros v. split; [discriminate|].
      intros (_ & d & c & Hd & Hc & H). injection Hd as <-.
      rewrite Hcontent in Hc. injection Hc as <-.
      rewrite Hparse in H. discriminate H.
    + intros d c r _ Hd Hc H. injection Hd as <-.
      rewrite Hcontent in Hc. injection Hc as <-.
      rewrite Hparse in H. discriminate H.
Qed.

Lemma analyze_failure_causes_witness :
  analyzeFoodImage Sample.env_scenario_A Sample.jpeg
  = Resolved (FoodAnalysisResponse.to_value Sample.meal)
  /\ FoodAnalysisResponse.of_value (FoodAnalysisResponse.to_value Sample.meal)
     = Some Sample.meal.
Proof.
  destruct (analyze_failure_causes Sample.env_scenario_A Sample.jpeg)
    as (_ & _ & _ & Hrecord).
  exact (Hrecord (Sample.reply (VString Sample.meal_text))
           (VString Sample.meal_text) Sample.meal
           eq_refl eq_refl eq_refl eq_refl).
Defined.

End ClientClaims.

(* ===================================================================== *)
(** ** The end-to-end scenarios *)
(* ===================================================================== *)

Section Scenarios.
Import JS Session Sample.

(** Scenario A: a photo is selected and analysed, the endpoint answers
    with the sample reply. *)
Example scenario_A :
  Client.analyzeFoodImage env_scenario_A jpeg = Resolved meal_value
  /\ run start (analysed jpeg meal_value)
     = Some (at_rest (shown jpeg meal_value))
  /\ pendingState (shown jpeg meal_value) = Succeeded
  /\ option_map (map (fun d => (Chart.name d, Chart.value d)))
       (Chart.prepareNutritionData (shown jpeg meal_value))
     = Some [ ("Carbs", VNumber 40%float); ("Protein", VNumber 30%float);
              ("Total Fat", VNumber 8%float); ("Fiber", VNumber 5%float);
              ("Sugar", VNumber 3%float) ]
  /\ View.warnings_card meal
     = View.Placeholder "No specific warnings for this food.".
Proof. repeat split; reflexivity. Qed.

(** Scenario B: a text file is selected. *)
Example scenario_B :
  run start (tasks [FileChange (Some [notes])])
  = Some (at_rest (setError (Some invalid_type_message) initial))
  /\ pendingState (setError (Some invalid_type_message) initial) = Idle.
Proof. split; reflexivity. Qed.

(** Scenario C: a photo is selected and the call fails. *)
Example scenario_C :
  run start (tasks [FileChange (Some [jpeg]); ReaderLoaded jpeg; ClickAnalyze;
                    AnalyzeSettled jpeg (Rejected Client.analysis_error)])
  = Some (at_rest {| selectedFile := Some jpeg;
                     imagePreview := Some (Encoder.readAsDataURL jpeg);
                     analysisResult := VNull;
                     isLoading := false;
                     error := Some analysis_failed_message |})
  /\ pendingState {| selectedFile := Some jpeg;
                     imagePreview := Some (Encoder.readAsDataURL jpeg);
                     analysisResult := VNull;
                     isLoading := false;
                     error := Some analysis_failed_message |} = Failed.
Proof. split; reflexivity. Qed.

End Scenarios.

(* ===================================================================== *)
(** ** Further properties of the upload session *)
(* ===================================================================== *)

Section SessionUpkeep.
Import JS Session Upkeep.

Lemma run_keeps (P : Config -> Prop) :
  (forall c c' e, P c -> step c e = Some c' -> P c') ->
  forall events c c', P c -> run c events = Some c' -> P c'.
Proof.
  intros Hstep events. induction events as [|e events IH]; simpl;
    intros c c' Hc Hrun.
  - injection Hrun as <-. exact Hc.
  - destruct (step c e) as [c1|] eqn:He; [|discriminate].
    exact (IH c1 c' (Hstep c c1 e Hc He) Hrun).
Qed.

Lemma reachable_keeps (P : Config -> Prop) :
  P start ->
  (forall c c' e, P c -> step c e = Some c' -> P c') ->
  forall c, reachable c -> P c.
Proof.
  intros Hstart Hstep c [events Hrun].
  exact (run_keeps P Hstep events start c Hstart Hrun).
Qed.

Lemma take_out_sub (file : File.t) (l rest : list File.t) :
  take_out file l = Some rest ->
  In file l /\ (forall g, In g rest -> In g l).
Proof.
  revert rest. induction l as [|h l IH]; simpl; intros rest H.
  - discriminate.
  - destruct (File.eqb file h) eqn:Heq.
    + injection H as <-. split.
      * left. unfold File.eqb in Heq.
        destruct (File.eq_dec file h) as [Hsame|]; [|discriminate].
        symmetry. exact Hsame.
      * intros g Hg. right. exact Hg.
    + destruct (take_out file l) as [rest'|]; [|discriminate].
      injection H as <-. destruct (IH rest' eq_refl) as [Hin Hsub]. split.
      * right. exact Hin.
      * intros g [Hg | Hg]; [left; exact Hg | right; exact (Hsub g Hg)].
Qed.

Lemma take_out_forall (P : File.t -> Prop) (file : File.t)
    (l rest : list File.t) :
  take_out file l = Some rest -> Forall P l -> P file /\ Forall P rest.
Proof.
  intros Hout Hall. destruct (take_out_sub file l rest Hout) as [Hin Hsub].
  rewrite Forall_forall in Hall. split.
  - exact (Hall file Hin).
  - apply Forall_forall. intros g Hg. exact (Hall g (Hsub g Hg)).
Qed.


Lemma vetted_step (c c' : Config) (e : Event) :
  vetted c -> step c e = Some c' -> vetted c'.
Proof.
  intros (Hsel & Hseen & Hreads & Hcalls & Hprev) Hstep.
  destruct e as [files | | file | file result |]; simpl in Hstep.
  - injection Hstep as <-. unfold launch, handleFileChange.
    destruct (first_file files) as [file|]; simpl.
    + destruct (startsWith (File.type file) "image/") eqn:Htype; simpl;
        rewrite !app_nil_r.
      * repeat split; try assumption.
        -- intros f Hf. injection Hf as <-. exact Htype.
        -- apply Forall_app. split; [exact Hreads|].
           constructor; [exact Htype | constructor].
      * repeat split; assumption.
    + rewrite !app_nil_r. repeat split; assumption.
  - destruct (analyze_disabled (rendered c)) eqn:Hdis; [discriminate|].
    injection Hstep as <-.
    destruct (click_accepted (rendered c) (cells c) Hdis)
      as (file & Hfile & _ & Hrun).
    rewrite Hrun. unfold launch; simpl. rewrite app_nil_r.
    repeat split; try assumption.
    apply Forall_app. split; [exact Hcalls|].
    constructor; [exact (Hseen file Hfile) | constructor].
  - destruct (take_out file (reads c)) as [rest|] eqn:Hout; [|discriminate].
    injection Hstep as <-.
    destruct (take_out_forall _ file (reads c) rest Hout Hreads) as [Hf Hrest].
    repeat split; simpl; try assumption.
    intros url Hurl. injection Hurl as <-. exists file. split;
      [exact Hf | reflexivity].
  - destruct (take_out file (calls c)) as [rest|] eqn:Hout; [|discriminate].
    injection Hstep as <-.
    destruct (take_out_forall _ file (calls c) rest Hout Hcalls) as [_ Hrest].
    destruct result; repeat split; simpl; assumption.
  - injection Hstep as <-. repeat split; simpl; assumption.
Qed.

Lemma vetted_start : vetted start.
Proof.
  unfold vetted, start; simpl. repeat split; try constructor; discriminate.
Qed.

Lemma known_error_step (c c' : Config) (e : Event) :
  known_error c -> step c e = Some c' -> known_error c'.
Proof.
  unfold known_error. intros Hc Hstep.
  destruct e as [files | | file | file result |]; simpl in Hstep.
  - injection Hstep as <-. unfold launch, handleFileChange.
    destruct (first_file files) as [file|]; simpl.
    + destruct (startsWith (File.type file) "image/"); simpl.
      * left. reflexivity.
      * right. left. reflexivity.
    + left. reflexivity.
  - destruct (analyze_disabled (rendered c)) eqn:Hdis; [discriminate|].
    injection Hstep as <-.
    destruct (click_accepted (rendered c) (cells c) Hdis)
      as (file & _ & _ & Hrun).
    rewrite Hrun. left. reflexivity.
  - destruct (take_out file (reads c)) as [rest|]; [|discriminate].
    injection Hstep as <-. simpl. exact Hc.
  - destruct (take_out file (calls c)) as [rest|]; [|discriminate].
    injection Hstep as <-. destruct result; simpl.
    + exact Hc.
    + right. right. reflexivity.
  - injection Hstep as <-. exact Hc.
Qed.

Lemma selected_step (c c' : Config) (e : Event) :
  selectedFile (cells c) <> None -> step c e = Some c' ->
  selectedFile (cells c') <> None.
Proof.
  intros Hc Hstep. destruct e as [files | | file | file result |];
    simpl in Hstep.
  - injection Hstep as <-. unfold launch. simpl.
    apply file_change_keeps_file. exact Hc.
  - destruct (analyze_disabled (rendered c)) eqn:Hdis; [discriminate|].
    injection Hstep as <-.
    destruct (click_accepted (rendered c) (cells c) Hdis)
      as (file & _ & _ & Hrun).
    rewrite Hrun. exact Hc.
  - destruct (take_out file (reads c)); [|discriminate].
    injection Hstep as <-. exact Hc.
  - destruct (take_out file (calls c)); [|discriminate].
    injection Hstep as <-. destruct result; exact Hc.
  - injection Hstep as <-. exact Hc.
Qed.

(** A click on the enabled button starts one call, on the file the
    render saw. *)
Lemma click_launch (c : Config) (file : File.t) :
  selectedFile (rendered c) = Some file ->
  isLoading (rendered c) = false ->
  step c ClickAnalyze
  = Some {| cells := setError None (setIsLoading true (cells c));
            rendered := rendered c;
            reads := reads c;
            calls := calls c ++ [file] |}.
Proof.
  intros Hfile Hidle. simpl. unfold analyze_disabled, handleAnalyze, launch.
  rewrite Hfile, Hidle. simpl. rewrite app_nil_r. reflexivity.
Qed.

(** One task: an event and the commit that follows it. *)
Lemma settled_task (c c1 : Config) (e : Event) :
  settled c -> step c e = Some c1 ->
  settled {| cells := cells c1; rendered := cells c1;
             reads := reads c1; calls := calls c1 |}.
Proof.
  intros (Hfresh & Hup & Hdown) Hstep. unfold settled. simpl.
  split; [reflexivity|].
  destruct e as [files | | file | file result |]; simpl in Hstep.
  - injection Hstep as <-.
    destruct (file_change_frame files c) as (Hcalls & Hflag & _).
    rewrite Hcalls, Hflag. split; assumption.
  - destruct (analyze_disabled (rendered c)) eqn:Hdis; [discriminate|].
    injection Hstep as <-.
    destruct (click_accepted (rendered c) (cells c) Hdis)
      as (file & _ & Hidle & Hrun).
    rewrite Hrun. unfold launch; simpl. rewrite Hfresh in Hidle.
    rewrite (Hdown Hidle). split.
    + intros _. exists file. reflexivity.
    + discriminate.
  - destruct (take_out file (reads c)) as [rest|]; [|discriminate].
    injection Hstep as <-. simpl. split; assumption.
  - destruct (take_out file (calls c)) as [rest|] eqn:Hout; [|discriminate].
    injection Hstep as <-.
    assert (Hrest : rest = []).
    { destruct (isLoading (cells c)) eqn:Hflag.
      - destruct (Hup eq_refl) as [g Hg]. rewrite Hg in Hout.
        exact (take_out_single file g rest Hout).
      - rewrite (Hdown eq_refl) in Hout. discriminate. }
    subst rest. simpl. split; [discriminate | reflexivity].
  - injection Hstep as <-. simpl. split; assumption.
Qed.

Lemma settled_tasks (events : list Event) (c c' : Config) :
  settled c -> run c (tasks events) = Some c' -> settled c'.
Proof.
  revert c. induction events as [|e events IH]; simpl; intros c Hc Hrun.
  - injection Hrun as <-. exact Hc.
  - destruct (step c e) as [c1|] eqn:Hstep; [|discriminate].
    simpl in Hrun. exact (IH _ (settled_task c c1 e Hc Hstep) Hrun).
Qed.

Lemma settled_start : settled start.
Proof.
  unfold settled, start; simpl. split; [reflexivity|].
  split; [discriminate | reflexivity].
Qed.

(** X1.  When every event is a task of its own, so that the component
    re-renders between any two of them, at most one call of the analysis
    client is outstanding, and one is outstanding exactly while the
    loading flag is up; the page then shows the analyze button disabled
    with the spinner label and a click does nothing.  The handler itself
    does not look at the flag: two clicks that meet the same render both
    start a call. *)
Theorem one_call_per_task (events : list Event) (c : Config)
    (Hrun : run start (tasks events) = Some c) :
  rendered c = cells c
  /\ (calls c = [] \/ exists file, calls c = [file])
  /\ (isLoading (cells c) = true <-> calls c <> [])
  /\ (calls c <> [] ->
      analyze_disabled (rendered c) = true
      /\ View.button_label (rendered c) = "Analyzing your meal..."
      /\ step c ClickAnalyze = None)
  /\ (forall file,
        selectedFile (cells c) = Some file ->
        isLoading (cells c) = false ->
        run c [ClickAnalyze; ClickAnalyze]
        = Some {| cells := setError None (setIsLoading true (cells c));
                  rendered := cells c;
                  reads := reads c;
                  calls := [file; file] |}).
Proof.
  destruct (settled_tasks events start c settled_start Hrun)
    as (Hfresh & Hup & Hdown).
  split; [exact Hfresh|].
  destruct (isLoading (cells c)) eqn:Hflag.
  - destruct (Hup eq_refl) as [file Hcalls]. rewrite Hcalls.
    split; [right; exists file; reflexivity|]. split.
    + split; [discriminate | reflexivity].
    + split; [|discriminate].
      intros _. simpl. unfold View.button_label, analyze_disabled.
      rewrite Hfresh, Hflag.
      destruct (selectedFile (cells c)); repeat split.
  - rewrite (Hdown eq_refl). split; [left; reflexivity|]. split.
    + split; [discriminate | intros H; contradiction H; reflexivity].
    + split; [intros H; contradiction H; reflexivity|].
      intros file Hfile _.
      assert (Hseen : selectedFile (rendered c) = Some file)
        by (rewrite Hfresh; exact Hfile).
      assert (Hidle : isLoading (rendered c) = false)
        by (rewrite Hfresh; exact Hflag).
      cbn [run]. rewrite (click_launch c file Hseen Hidle).
      rewrite click_launch with (file := file) by assumption. simpl.
      rewrite (Hdown eq_refl), Hfresh. reflexivity.
Qed.

Lemma one_call_per_task_witness :
  run (Sample.at_rest (Sample.shown Sample.jpeg VNull))
    [ClickAnalyze; ClickAnalyze]
  = Some {| cells := setError None
                       (setIsLoading true (Sample.shown Sample.jpeg VNull));
            rendered := Sample.shown Sample.jpeg VNull;
            reads := [];
            calls := [Sample.jpeg; Sample.jpeg] |}.
Proof.
  destruct (one_call_per_task
              [FileChange (Some [Sample.jpeg]); ReaderLoaded Sample.jpeg]
              (Sample.at_rest (Sample.shown Sample.jpeg VNull))
              eq_refl) as (_ & _ & _ & _ & Htwice).
  exact (Htwice Sample.jpeg eq_refl eq_refl).
Defined.

(** X2.  Only files that passed the media-type check are ever selected,
    read for the preview or handed to the analysis client, and a preview
    that is shown is the data URL of such a file. *)
Theorem only_images_are_handled (c : Config) (Hreach : reachable c) :
  vetted c.
Proof.
  exact (reachable_keeps vetted vetted_start vetted_step c Hreach).
Qed.

Lemma only_images_are_handled_witness :
  Forall (fun file => is_image file = true) [Sample.jpeg; Sample.png].
Proof.
  assert (Hreach : reachable
            {| cells := {| selectedFile := Some Sample.png;
                           imagePreview := None;
                           analysisResult := VNull;
                           isLoading := false;
                           error := Some invalid_type_message |};
               rendered := initial;
               reads := [Sample.jpeg; Sample.png];
               calls := [] |}).
  { apply (reachable_after
             [FileChange (Some [Sample.jpeg]); FileChange (Some [Sample.png]);
              FileChange (Some [Sample.notes])]).
    reflexivity. }
  exact (proj1 (proj2 (proj2 (only_images_are_handled _ Hreach)))).
Defined.

(** X3.  The error cell only ever holds the type-rejection message or the
    analysis-failure message: the no-file message of [handleAnalyze] is
    never shown, because the button that runs it is disabled while no file
    is selected. *)
Theorem no_file_message_is_never_shown (c : Config) (Hreach : reachable c) :
  known_error c /\ error (cells c) <> Some no_file_message.
Proof.
  assert (Hknown : known_error c).
  { apply (reachable_keeps known_error); [left; reflexivity | | exact Hreach].
    exact known_error_step. }
  split; [exact Hknown|].
  destruct Hknown as [H | [H | H]]; rewrite H; discriminate.
Qed.

Lemma no_file_message_is_never_shown_witness :
  error (setError (Some analysis_failed_message)
           (Sample.shown Sample.jpeg VNull))
  <> Some no_file_message.
Proof.
  assert (Hreach : reachable
            (Sample.at_rest
               (setError (Some analysis_failed_message)
                  (Sample.shown Sample.jpeg VNull)))).
  { apply (reachable_after
             (tasks [FileChange (Some [Sample.jpeg]);
                     ReaderLoaded Sample.jpeg; ClickAnalyze;
                     AnalyzeSettled Sample.jpeg (Rejected "Network Error")])).
    reflexivity. }
  exact (proj2 (no_file_message_is_never_shown _ Hreach)).
Defined.

(** X4.  Once a file is selected, a file stays selected whatever happens
    next: no event puts the selection back to none. *)
Theorem selection_is_never_dropped (c c' : Config) (events : list Event)
    (Hselected : selectedFile (cells c) <> None)
    (Hrun : run c events = Some c') :
  selectedFile (cells c') <> None.
Proof.
  exact (run_keeps (fun c => selectedFile (cells c) <> None) selected_step
           events c c' Hselected Hrun).
Qed.

Lemma selection_is_never_dropped_witness :
  selectedFile (setError (Some invalid_type_message)
                  (Sample.shown Sample.jpeg Sample.meal_value)) <> None.
Proof.
  apply (selection_is_never_dropped
           (Sample.at_rest (Sample.shown Sample.jpeg Sample.meal_value))
           {| cells := setError (Some invalid_type_message)
                         (Sample.shown Sample.jpeg Sample.meal_value);
              rendered := Sample.shown Sample.jpeg Sample.meal_value;
              reads := []; calls := [] |}
           [FileChange (Some [Sample.notes]); FileChange None;
            FileChange (Some [Sample.notes])]).
  - discriminate.
  - reflexivity.
Defined.



End SessionUpkeep.

(* ===================================================================== *)
(** ** How the events of the session compose *)
(* ===================================================================== *)

Section SessionRuns.
Import JS Session Upkeep.

(** X6.  From a rendered state with a file selected, the flag down and no
    call outstanding, an analysis that is started and settles with nothing
    in between ends with the flag down and no call outstanding.  On
    success the cell holds the value the call resolved with, whatever it
    is, and no error message is left; on failure the fallback message is
    stored and whatever the result cell held before the click stays. *)
Theorem click_then_settle (c : Config) (file : File.t)
    (result : outcome value)
    (Hfresh : rendered c = cells c)
    (Hfile : selectedFile (cells c) = Some file)
    (Hidle : isLoading (cells c) = false)
    (Hnone : calls c = []) :
  run c (tasks [ClickAnalyze; AnalyzeSettled file result])
  = Some {| cells := {| selectedFile := Some file;
                        imagePreview := imagePreview (cells c);
                        analysisResult :=
                          match result with
                          | Resolved r => r
                          | Rejected _ => analysisResult (cells c)
                          end;
                        isLoading := false;
                        error :=
                          match result with
                          | Resolved _ => None
                          | Rejected _ => Some analysis_failed_message
                          end |};
            rendered := {| selectedFile := Some file;
                           imagePreview := imagePreview (cells c);
                           analysisResult :=
                             match result with
                             | Resolved r => r
                             | Rejected _ => analysisResult (cells c)
                             end;
                           isLoading := false;
                           error :=
                             match result with
                             | Resolved _ => None
                             | Rejected _ => Some analysis_failed_message
                             end |};
            reads := reads c;
            calls := [] |}.
Proof.
  assert (Hseen : selectedFile (rendered c) = Some file)
    by (rewrite Hfresh; exact Hfile).
  assert (Hdown : isLoading (rendered c) = false)
    by (rewrite Hfresh; exact Hidle).
  cbn [tasks run]. rewrite (click_launch c file Hseen Hdown).
  simpl. rewrite Hnone. simpl. rewrite eqb_same.
  destruct result;
    unfold handleAnalyze_settled, setAnalysisResult, setError, setIsLoading;
    simpl; rewrite Hfile; reflexivity.
Qed.

Lemma click_then_settle_witness :
  run (Sample.at_rest (Sample.shown Sample.jpeg Sample.meal_value))
    (tasks [ClickAnalyze;
            AnalyzeSettled Sample.jpeg (Rejected "Network Error")])
  = Some (Sample.at_rest
            (setError (Some analysis_failed_message)
               (Sample.shown Sample.jpeg Sample.meal_value))).
Proof.
  exact (click_then_settle
           (Sample.at_rest (Sample.shown Sample.jpeg Sample.meal_value))
           Sample.jpeg (Rejected "Network Error")
           eq_refl eq_refl eq_refl eq_refl).
Defined.

(** X7.  A completion is stored whatever was selected in the meantime:
    when another image is selected while the analysis of the first is
    running, the value that the call for the first file resolves with is
    stored with the second file selected, and the flag goes down. *)
Theorem late_completion_is_stored (c : Config) (first second : File.t)
    (r : value)
    (Hfresh : rendered c = cells c)
    (Hfile : selectedFile (cells c) = Some first)
    (Hidle : isLoading (cells c) = false)
    (Hnone : calls c = [])
    (Hsecond : is_image second = true) :
  run c (tasks [ClickAnalyze; FileChange (Some [second]);
                AnalyzeSettled first (Resolved r)])
  = Some {| cells := {| selectedFile := Some second;
                        imagePreview := imagePreview (cells c);
                        analysisResult := r;
                        isLoading := false;
                        error := None |};
            rendered := {| selectedFile := Some second;
                           imagePreview := imagePreview (cells c);
                           analysisResult := r;
                           isLoading := false;
                           error := None |};
            reads := reads c ++ [second];
            calls := [] |}.
Proof.
  assert (Hseen : selectedFile (rendered c) = Some first)
    by (rewrite Hfresh; exact Hfile).
  assert (Hdown : isLoading (rendered c) = false)
    by (rewrite Hfresh; exact Hidle).
  cbn [tasks run]. rewrite (click_launch c first Hseen Hdown).
  cbn [step run cells]. unfold launch.
  rewrite (file_change_valid (Some [second]) second _ eq_refl Hsecond).
  simpl. rewrite Hnone. simpl. rewrite eqb_same. reflexivity.
Qed.

Lemma late_completion_is_stored_witness :
  run (Sample.at_rest (Sample.shown Sample.jpeg VNull))
    (tasks [ClickAnalyze; FileChange (Some [Sample.png]);
            AnalyzeSettled Sample.jpeg (Resolved (VObject []))])
  = Some {| cells := {| selectedFile := Some Sample.png;
                        imagePreview :=
                          Some (Encoder.readAsDataURL Sample.jpeg);
                        analysisResult := VObject [];
                        isLoading := false;
                        error := None |};
            rendered := {| selectedFile := Some Sample.png;
                           imagePreview :=
                             Some (Encoder.readAsDataURL Sample.jpeg);
                           analysisResult := VObject [];
                           isLoading := false;
                           error := None |};
            reads := [Sample.png];
            calls := [] |}.
Proof.
  exact (late_completion_is_stored
           (Sample.at_rest (Sample.shown Sample.jpeg VNull))
           Sample.jpeg Sample.png (VObject [])
           eq_refl eq_refl eq_refl eq_refl eq_refl).
Defined.

(** X8.  Delivering the same change event twice leaves the cells as one
    delivery does, whether the event carries a valid image, a file of the
    wrong type or no file. *)
Theorem file_change_twice (files : option (list File.t)) (st : State) :
  fst (handleFileChange files (fst (handleFileChange files st)))
  = fst (handleFileChange files st).
Proof.
  destruct (first_file files) as [file|] eqn:Hfirst.
  - destruct (startsWith (File.type file) "image/") eqn:Htype.
    + rewrite !(file_change_valid files file _ Hfirst Htype). reflexivity.
    + rewrite !(file_change_invalid files file _ Hfirst Htype). reflexivity.
  - rewrite !(file_change_empty files _ Hfirst). reflexivity.
Qed.

(** X9.  The completion of a preview read and the completion of an
    analysis do not interfere: in whichever order the two arrive, the
    component ends in the same configuration (or, when one of them is not
    under way, accepts neither order). *)
Theorem load_and_settle_commute (c : Config) (read analysed : File.t)
    (result : outcome value) :
  run c [ReaderLoaded read; AnalyzeSettled analysed result]
  = run c [AnalyzeSettled analysed result; ReaderLoaded read].
Proof.
  simpl.
  destruct (take_out read (reads c)) as [reads'|] eqn:Hreads;
    destruct (take_out analysed (calls c)) as [calls'|] eqn:Hcalls;
    simpl; rewrite ?Hreads, ?Hcalls; try reflexivity.
  destruct result; reflexivity.
Qed.

End SessionRuns.

(* ===================================================================== *)
(** ** What the result panel shows *)
(* ===================================================================== *)

Section ViewFacts.
Import View.

Lemma map_indexed_items {A : Type} (l : list A) (index : nat) :
  map_indexed (fun item _ => item) l index = l.
Proof.
  revert index. induction l as [|item l IH]; simpl; intros index.
  - reflexivity.
  - rewrite IH. reflexivity.
Qed.

(** X10.  The icon grid shows the first six ingredients at most, in the
    order of the reply and each under an icon of its own (the index never
    reaches the point where [index % 6] would wrap); the chips above it
    show every ingredient. *)
Theorem ingredient_grid (a : FoodAnalysisResponse.t) :
  map snd (ingredient_tiles a) = firstn 6 (FoodAnalysisResponse.contents a)
  /\ List.length (ingredient_tiles a)
     = Nat.min 6 (List.length (FoodAnalysisResponse.contents a))
  /\ NoDup (map fst (ingredient_tiles a))
  /\ ingredient_chips a = FoodAnalysisResponse.contents a.
Proof.
  unfold ingredient_tiles, ingredient_chips, slice_from_start.
  rewrite map_indexed_items.
  destruct (FoodAnalysisResponse.contents a)
    as [|x1 [|x2 [|x3 [|x4 [|x5 [|x6 rest]]]]]]; simpl;
    (split; [reflexivity|]); (split; [reflexivity|]);
    (split; [|reflexivity]);
    repeat (constructor; [simpl; intuition discriminate|]); constructor.
Qed.

(** X11.  The warnings card shows the placeholder sentence exactly when
    the reply has no warnings and otherwise every warning in order, never
    an empty list; the benefits card shows every benefit in order and has
    no placeholder. *)
Theorem result_cards (a : FoodAnalysisResponse.t) :
  let h := FoodAnalysisResponse.healthAssessment a in
  (HealthAssessment.warnings h = [] ->
   warnings_card a = Placeholder "No specific warnings for this food.")
  /\ (HealthAssessment.warnings h <> [] ->
      warnings_card a = WarningItems (HealthAssessment.warnings h))
  /\ warnings_card a <> WarningItems []
  /\ benefits_card a = HealthAssessment.benefits h.
Proof.
  intros h. unfold warnings_card, benefits_card. fold h.
  rewrite !map_indexed_items.
  destruct (HealthAssessment.warnings h) as [|w ws]; simpl.
  - repeat split; try discriminate. intros H. contradiction H. reflexivity.
  - repeat split; discriminate.
Qed.

Lemma result_cards_witness :
  warnings_card Sample.meal
  = Placeholder "No specific warnings for this food.".
Proof.
  exact (proj1 (result_cards Sample.meal) eq_refl).
Defined.

End ViewFacts.

(* ===================================================================== *)
(** ** Further properties of the analysis client *)
(* ===================================================================== *)

Section ClientFacts.
Import JS Client.

(** The request that goes out for a file whose read succeeds. *)
Lemma analyze_after_read (env : Env) (file : File.t) :
  read_error env file = false ->
  analyzeFoodImage env file
  = match axios_post env
            (request env
               (nth_error (split (Encoder.readAsDataURL file) ","%char) 1))
    with
    | None => Rejected analysis_error
    | Some data =>
        match message_content data with
        | None => Rejected analysis_error
        | Some content =>
            match JSON_parse env content with
            | None => Rejected analysis_error
            | Some jsonContent => Resolved jsonContent
            end
        end
    end.
Proof.
  intros Hread. unfold analyzeFoodImage. rewrite try_analyze_steps, Hread.
  destruct (axios_post env _) as [data|]; [|reflexivity].
  destruct (message_content data) as [content|]; [|reflexivity].
  destruct (JSON_parse env content); reflexivity.
Qed.

(** X12.  A reply without a first choice to read a message from is an
    analysis failure, whatever [JSON.parse] would make of anything: a
    body that is [null] or plain text, an object without [choices], with
    an empty [choices] array, or whose first choice has no [message]. *)
Theorem reply_without_message_is_rejected (env : Env) (file : File.t)
    (data : value)
    (Hread : read_error env file = false)
    (Hpost : axios_post env
               (request env
                  (nth_error (split (Encoder.readAsDataURL file) ","%char) 1))
             = Some data)
    (Hshape : data = VNull
              \/ (exists text, data = VString text)
              \/ (exists fields,
                    data = VObject fields
                    /\ (own fields "choices" = VUndefined
                        \/ own fields "choices" = VArray []
                        \/ exists choice more,
                             own fields "choices"
                             = VArray (VObject choice :: more)
                             /\ own choice "message" = VUndefined))) :
  analyzeFoodImage env file = Rejected analysis_error.
Proof.
  rewrite (analyze_after_read env file Hread), Hpost.
  assert (Hnone : message_content data = None).
  { unfold message_content.
    destruct Hshape as [-> | [[text ->] | (fields & -> & Hchoices)]].
    - reflexivity.
    - reflexivity.
    - simpl. destruct Hchoices as [-> | [-> | (choice & more & -> & Hmsg)]].
      + reflexivity.
      + reflexivity.
      + simpl. rewrite Hmsg. reflexivity. }
  rewrite Hnone. reflexivity.
Qed.

Lemma reply_without_message_is_rejected_witness :
  analyzeFoodImage Sample.env_no_choices Sample.jpeg
  = Rejected analysis_error.
Proof.
  apply (reply_without_message_is_rejected Sample.env_no_choices Sample.jpeg
           (VObject [("choices", VArray [])]) eq_refl eq_refl).
  right. right. exists [("choices", VArray [])]. split; [reflexivity|].
  right. left. reflexivity.
Defined.

(** X13.  Only the content of the first choice's message decides the
    outcome: the call resolves with what [JSON.parse] makes of it and
    fails when [JSON.parse] throws, whatever other choices and other
    fields the reply carries. *)
Theorem first_choice_decides (env : Env) (file : File.t)
    (fields choice message : list (string * value)) (more : list value)
    (Hread : read_error env file = false)
    (Hpost : axios_post env
               (request env
                  (nth_error (split (Encoder.readAsDataURL file) ","%char) 1))
             = Some (VObject fields))
    (Hchoices : own fields "choices" = VArray (VObject choice :: more))
    (Hmessage : own choice "message" = VObject message) :
  analyzeFoodImage env file
  = match JSON_parse env (own message "content") with
    | Some jsonContent => Resolved jsonContent
    | None => Rejected analysis_error
    end.
Proof.
  rewrite (analyze_after_read env file Hread), Hpost.
  unfold message_content. simpl. rewrite Hchoices. simpl.
  rewrite Hmessage. simpl.
  destruct (JSON_parse env (own message "content")); reflexivity.
Qed.

Lemma first_choice_decides_witness :
  analyzeFoodImage Sample.env_two_choices Sample.jpeg = Resolved (VObject []).
Proof.
  exact (first_choice_decides Sample.env_two_choices Sample.jpeg
           Sample.two_choices Sample.first_choice
           [("role", VString "assistant"); ("content", VString "{}")]
           [VObject [("index", VNumber 1%float)]]
           eq_refl eq_refl eq_refl eq_refl).
Defined.

(** X14.  Neither the name nor the declared media type of the file goes
    out: two files with the same bytes (and media types without a comma)
    produce the same request, with the image labelled image/jpeg, and the
    same outcome. *)
Theorem only_the_bytes_are_sent (env : Env) (file other : File.t)
    (Hbytes : File.content file = File.content other)
    (Hclean : includes (File.type file) ","%char = false)
    (Hclean' : includes (File.type other) ","%char = false)
    (Hread : read_error env file = read_error env other) :
  request env (nth_error (split (Encoder.readAsDataURL file) ","%char) 1)
  = request env (nth_error (split (Encoder.readAsDataURL other) ","%char) 1)
  /\ image_url
       (request env
          (nth_error (split (Encoder.readAsDataURL file) ","%char) 1))
     = ("data:image/jpeg;base64,"
          ++ string_of_list_ascii (Base64.encode (File.content file)))%string
  /\ analyzeFoodImage env file = analyzeFoodImage env other.
Proof.
  assert (Hsame :
    nth_error (split (Encoder.readAsDataURL file) ","%char) 1
    = nth_error (split (Encoder.readAsDataURL other) ","%char) 1).
  { rewrite (split_dataURL file Hclean), (split_dataURL other Hclean').
    simpl. rewrite Hbytes. reflexivity. }
  split; [rewrite Hsame; reflexivity|]. split.
  - rewrite (split_dataURL file Hclean). reflexivity.
  - unfold analyzeFoodImage. rewrite !try_analyze_steps, Hread, Hsame.
    reflexivity.
Qed.

Lemma only_the_bytes_are_sent_witness :
  analyzeFoodImage Sample.env_empty_object Sample.png
  = analyzeFoodImage Sample.env_empty_object
      (File.mk "copy.jpg" "image/jpeg" (File.content Sample.png)).
Proof.
  exact (proj2 (proj2
    (only_the_bytes_are_sent Sample.env_empty_object Sample.png
       (File.mk "copy.jpg" "image/jpeg" (File.content Sample.png))
       eq_refl eq_refl eq_refl eq_refl))).
Defined.

End ClientFacts.

(* ===================================================================== *)
(** ** Further properties of the transport encoding *)
(* ===================================================================== *)

Section TransportFacts.
Import JS.

Lemma split_not_empty (s : string) (sep : ascii) : split s sep <> [].
Proof.
  destruct s as [|c s]; simpl.
  - discriminate.
  - destruct (Ascii.eqb c sep); [discriminate|].
    destruct (split s sep); discriminate.
Qed.

Lemma split_segments_clean (s : string) (sep : ascii) :
  Forall (fun seg => includes seg sep = false) (split s sep).
Proof.
  induction s as [|c s IH]; simpl.
  - constructor; [reflexivity | constructor].
  - destruct (Ascii.eqb c sep) eqn:Hc.
    + constructor; [reflexivity | exact IH].
    + destruct (split s sep) as [|seg segs].
      * constructor; [simpl; rewrite Hc; reflexivity | constructor].
      * inversion IH as [|? ? Hseg Hsegs]; subst.
        constructor; [simpl; rewrite Hc; exact Hseg | exact Hsegs].
Qed.

(** The second segment of a split at commas is the start of what follows
    the first comma, up to the next one. *)
Lemma second_segment (s : string) :
  nth_error (split s ","%char) 1
  = match Encoder.without_prefix s with
    | Some rest => Some (hd EmptyString (split rest ","%char))
    | None => None
    end.
Proof.
  induction s as [|c s IH]; simpl.
  - reflexivity.
  - destruct (Ascii.eqb c ","%char).
    + simpl. destruct (split s ","%char) as [|seg segs] eqn:Hsplit.
      * contradiction (split_not_empty s ","%char Hsplit).
      * reflexivity.
    + destruct (split s ","%char) as [|seg segs] eqn:Hsplit.
      * contradiction (split_not_empty s ","%char Hsplit).
      * simpl. simpl in IH. exact IH.
Qed.

Lemma without_prefix_found (p rest : string) :
  exists rest', Encoder.without_prefix (p ++ String ","%char rest) = Some rest'.
Proof.
  induction p as [|c p IH]; simpl.
  - exists rest. reflexivity.
  - destruct (Ascii.eqb c ","%char); [eexists; reflexivity | exact IH].
Qed.

(** X15.  For every file, whatever its media type, the transport encoding
    is the preview data URL without its prefix up to the first comma, cut
    at the next comma if there is one: the two differ exactly by what
    follows a second comma. *)
Theorem transport_is_cut_at_second_comma (file : File.t) :
  Encoder.fileToBase64 false file
  = Resolved
      match Encoder.without_prefix (Encoder.readAsDataURL file) with
      | Some rest => Some (hd EmptyString (split rest ","%char))
      | None => None
      end.
Proof.
  unfold Encoder.fileToBase64. rewrite second_segment. reflexivity.
Qed.

(** X16.  For a file of at least one byte the transport encoding is
    never [undefined]: the promise of [fileToBase64] resolves with a text,
    that text holds no comma, and it is what the request embeds after its
    jpeg header, so the request never carries the word undefined for an
    image. *)
Theorem transport_is_a_text (env : Client.Env) (file : File.t)
    (Hbytes : File.content file <> []) :
  exists text,
    Encoder.fileToBase64 false file = Resolved (Some text)
    /\ includes text ","%char = false
    /\ Client.image_url
         (Client.request env
            (nth_error (split (Encoder.readAsDataURL file) ","%char) 1))
       = ("data:image/jpeg;base64," ++ text)%string.
Proof.
  unfold Encoder.fileToBase64.
  assert (Hclean := split_segments_clean (Encoder.readAsDataURL file) ","%char).
  rewrite second_segment in *. rewrite dataURL_shape in *.
  destruct (without_prefix_found
              ("data:" ++ File.type file ++ ";base64")%string
              (string_of_list_ascii (Base64.encode (File.content file))))
    as [rest Hrest].
  rewrite Hrest.
  exists (hd EmptyString (split rest ","%char)). split; [reflexivity|].
  split; [|reflexivity].
  assert (Hsegs := split_segments_clean rest ","%char).
  destruct (split rest ","%char) as [|seg segs] eqn:Hsplit.
  - reflexivity.
  - inversion Hsegs; subst. assumption.
Qed.

Lemma transport_is_a_text_witness :
  exists text,
    Encoder.fileToBase64 false Sample.odd = Resolved (Some text)
    /\ includes text ","%char = false
    /\ Client.image_url
         (Client.request Sample.env_scenario_A
            (nth_error
               (split (Encoder.readAsDataURL Sample.odd) ","%char) 1))
       = ("data:image/jpeg;base64," ++ text)%string.
Proof.
  apply (transport_is_a_text Sample.env_scenario_A Sample.odd). discriminate.
Defined.

End TransportFacts.
